(** * Overkiz (by Somfy) integration: config-entry lifecycle

    A shallow embedding of [custom_component/overkiz_local/__init__.py]:
    [async_migrate_entry], [async_setup_entry] and [async_unload_entry].

    Python objects that are shared and mutated (the coordinator and the
    [platforms] defaultdict referenced from the stored bundle) live in an
    explicit heap; dictionaries are [gmap]s; exceptions are values of [exn]
    and every effectful function is written in a state-and-exception monad
    in which the state survives a raise, as it does in Python. *)

From stdpp Require Import gmap strings list fin_maps.
From Stdlib Require Import ZArith.

Local Open Scope string_scope.
Local Open Scope list_scope.

(** ** Python values found in [entry.data] *)

Inductive value :=
| VStr (s : string)
| VInt (z : Z)
| VBool (b : bool)
| VNone.

#[global] Instance value_eq_dec : EqDecision value.
Proof. solve_decision. Defined.

(** [pyoverkiz.enums.APIType] is a [StrEnum]: a member is equal to, and
    hashes as, its string value. *)
Inductive APIType := CLOUD | LOCAL.

Definition APIType_value (t : APIType) : value :=
  match t with
  | CLOUD => VStr "cloud"
  | LOCAL => VStr "local"
  end.

(** [homeassistant.const] *)
Definition CONF_HOST : string := "host".
Definition CONF_PASSWORD : string := "password".
Definition CONF_TOKEN : string := "token".
Definition CONF_USERNAME : string := "username".

(** ** Exceptions

    One constructor per class the module names, [KeyError] for the
    subscripts, [OtherException] for every class outside those.  The
    [cause] of the two framework failures is what [raise ... from] records. *)

#[warnings="-register-all"] Inductive exn :=
| BadCredentialsException
| NotSuchTokenException
| TooManyRequestsException
| MaintenanceException
| TimeoutError
| ClientError
| ClientConnectorError
| ServerDisconnectedError
| KeyError (key : value)
| AttributeError (attr : string)
| OtherException (cls : string)
| ConfigEntryAuthFailed (msg : string) (cause : option exn)
| ConfigEntryNotReady (msg : string) (cause : option exn).

Inductive outcome (A : Type) :=
| Ok (a : A)
| Raise (e : exn).
Arguments Ok {A} a.
Arguments Raise {A} e.

Definition obind {A B} (m : outcome A) (k : A -> outcome B) : outcome B :=
  match m with
  | Ok a => k a
  | Raise e => Raise e
  end.

Notation "'try!' x := m 'in' k" := (obind m (fun x => k))
  (at level 10, x name, m at level 100, k at level 200).

(** State-and-exception monad: a raise keeps the mutations made so far. *)
Definition M (S A : Type) : Type := S -> outcome A * S.

Definition ret {S A} (a : A) : M S A := fun s => (Ok a, s).
Definition raise {S A} (e : exn) : M S A := fun s => (Raise e, s).
Definition lift {S A} (o : outcome A) : M S A := fun s => (o, s).
Definition bind {S A B} (m : M S A) (k : A -> M S B) : M S B :=
  fun s =>
    match m s with
    | (Ok a, s') => k a s'
    | (Raise e, s') => (Raise e, s')
    end.
Definition get {S} : M S S := fun s => (Ok s, s).
Definition modify {S} (f : S -> S) : M S unit := fun s => (Ok tt, f s).

Notation "'do!' x := m 'in' k" := (bind m (fun x => k))
  (at level 10, x name, m at level 100, k at level 200).
Notation "m ';;!' k" := (bind m (fun _ => k))
  (at level 100, k at level 200, right associativity).

(** [for x in xs: body x] *)
Fixpoint for_each {S A} (xs : list A) (body : A -> M S unit) : M S unit :=
  match xs with
  | [] => ret tt
  | x :: rest => body x ;;! for_each rest body
  end.

(** [d[k]] on a dict with string keys *)
Definition getitem {V} (d : gmap string V) (k : string) : outcome V :=
  match d !! k with
  | Some v => Ok v
  | None => Raise (KeyError (VStr k))
  end.

(** ** Config entries *)

Record ConfigEntry := {
  entry_id : string;
  version : Z;
  data : gmap string value
}.

#[global] Instance ConfigEntry_eq_dec : EqDecision ConfigEntry.
Proof. solve_decision. Defined.

Definition set_version (v : Z) (e : ConfigEntry) : ConfigEntry :=
  {| entry_id := entry_id e; version := v; data := data e |}.
Definition set_data (d : gmap string value) (e : ConfigEntry) : ConfigEntry :=
  {| entry_id := entry_id e; version := version e; data := d |}.

(** ** Vendor models ([pyoverkiz.models]) *)

(** [homeassistant.const.Platform] is a [StrEnum]; a member is identified
    by its string value.  [timedelta] values are counted in seconds. *)
Abbreviation Platform := string (only parsing).
Abbreviation timedelta := Z (only parsing).

(** [widget] and [ui_class] are [StrEnum] members ([UIWidget], [UIClass]):
    as dictionary keys they are their string values. *)
Record Device := {
  device_url : string;
  label : string;
  widget : string;
  ui_class : string
}.

Record Scenario := {
  oid : string;
  scenario_label : string
}.

Record Place := {
  place_oid : string;
  place_label : string
}.

(** [GatewayType] and [GatewaySubType] are [IntEnum]s: a member whose value
    is [0] is falsy. *)
Record IntEnumMember := {
  enum_value : Z;
  beautify_name : string
}.

Record Connectivity := {
  status : string;
  protocol_version : string
}.

Record Gateway := {
  gateway_id : string;
  gateway_type : option IntEnumMember;
  sub_type : option IntEnumMember;
  connectivity : Connectivity
}.

Record Setup := {
  devices : list Device;
  gateways : list Gateway;
  root_place : Place
}.

Record OverkizServer := {
  server_name : string;
  endpoint : string;
  manufacturer : string;
  configuration_url : option string
}.

Record ClientSession := {
  verify_ssl : bool
}.

Record OverkizClient := {
  username : value;
  password : value;
  token : option value;
  session : ClientSession;
  server : OverkizServer
}.

(** ** The coordinator *)

(** Modelled from the spec: [OverkizDataUpdateCoordinator] is declared in
    [coordinator.py], which is not part of the sources.  Per the spec it is
    constructed from (name, client, devices, places, polling interval,
    entry id) and exposes [data] (device id to device, unset before the
    first refresh), [is_stateless] and a mutable polling interval. *)
Record OverkizDataUpdateCoordinator := {
  coordinator_name : string;
  coordinator_client : OverkizClient;
  coordinator_devices : list Device;
  places : Place;
  update_interval : timedelta;
  config_entry_id : string;
  is_stateless : bool;
  coordinator_data : option (list (string * Device))
}.

Definition set_update_interval (i : timedelta)
    (c : OverkizDataUpdateCoordinator) : OverkizDataUpdateCoordinator :=
  {| coordinator_name := coordinator_name c;
     coordinator_client := coordinator_client c;
     coordinator_devices := coordinator_devices c;
     places := places c;
     update_interval := i;
     config_entry_id := config_entry_id c;
     is_stateless := is_stateless c;
     coordinator_data := coordinator_data c |}.

Definition set_coordinator_data (d : option (list (string * Device)))
    (c : OverkizDataUpdateCoordinator) : OverkizDataUpdateCoordinator :=
  {| coordinator_name := coordinator_name c;
     coordinator_client := coordinator_client c;
     coordinator_devices := coordinator_devices c;
     places := places c;
     update_interval := update_interval c;
     config_entry_id := config_entry_id c;
     is_stateless := is_stateless c;
     coordinator_data := d |}.

(** ** Home Assistant state *)

(** Shared mutable Python objects; a [loc] is a reference to one. *)
Inductive object :=
| OCoordinator (c : OverkizDataUpdateCoordinator)
| OPlatforms (p : gmap Platform (list Device)).

Abbreviation loc := nat (only parsing).

(** The dataclass of lines 48-54; both mutable members are references. *)
Record HomeAssistantOverkizData := {
  coordinator : loc;
  platforms : loc;
  scenarios : list Scenario
}.

(** A record of the device registry, with the fields
    [async_get_or_create] is given at lines 182-190. *)
Record DeviceEntry := {
  device_config_entry_id : string;
  identifiers : list (string * string);
  model : option string;
  device_manufacturer : string;
  device_name : string;
  sw_version : string;
  device_configuration_url : option string
}.

Record HomeAssistant := {
  hass_data : gmap string (gmap string HomeAssistantOverkizData);
  heap : list object;
  saved_entries : list ConfigEntry;
  device_registry : list DeviceEntry;
  forwarded : gmap string (list Platform)
}.

Definition set_hass_data (d : gmap string (gmap string HomeAssistantOverkizData))
    (h : HomeAssistant) : HomeAssistant :=
  {| hass_data := d; heap := heap h; saved_entries := saved_entries h;
     device_registry := device_registry h; forwarded := forwarded h |}.
Definition set_heap (hp : list object) (h : HomeAssistant) : HomeAssistant :=
  {| hass_data := hass_data h; heap := hp; saved_entries := saved_entries h;
     device_registry := device_registry h; forwarded := forwarded h |}.
Definition set_saved_entries (s : list ConfigEntry) (h : HomeAssistant) : HomeAssistant :=
  {| hass_data := hass_data h; heap := heap h; saved_entries := s;
     device_registry := device_registry h; forwarded := forwarded h |}.
Definition set_device_registry (r : list DeviceEntry) (h : HomeAssistant) : HomeAssistant :=
  {| hass_data := hass_data h; heap := heap h; saved_entries := saved_entries h;
     device_registry := r; forwarded := forwarded h |}.
Definition set_forwarded (f : gmap string (list Platform)) (h : HomeAssistant) : HomeAssistant :=
  {| hass_data := hass_data h; heap := heap h; saved_entries := saved_entries h;
     device_registry := device_registry h; forwarded := f |}.

(** ** Names imported from outside the file *)

(** The names taken from [.const], which is not part of the sources; they
    are parameters of the development. *)
Record Const := {
  CONF_API_TYPE : string;
  CONF_HUB : string;
  CONF_SERVER : string;
  DOMAIN : string;
  OVERKIZ_DEVICE_TO_PLATFORM : gmap string Platform;
  PLATFORMS : list Platform;
  UPDATE_INTERVAL : timedelta;
  UPDATE_INTERVAL_ALL_ASSUMED_STATE : timedelta
}.

(** What the libraries and the outside world answer: the [pyoverkiz] table
    and helper, the three network calls of the client, the order in which
    the two gathered fetches fail when both do, the coordinator's refresh,
    and the three framework calls that may fail or report. *)
Record Env := {
  SUPPORTED_SERVERS : gmap string OverkizServer;
  generate_local_server : value -> OverkizServer;
  reports_assumed_state : Device -> bool;
  login : OverkizClient -> outcome unit;
  get_setup : OverkizClient -> outcome Setup;
  get_scenarios : OverkizClient -> outcome (list Scenario);
  scenarios_fail_first : bool;
  first_refresh : OverkizDataUpdateCoordinator -> outcome (list (string * Device));
  get_or_create_error : DeviceEntry -> option exn;
  forward_entry_setups : ConfigEntry -> list Platform -> outcome unit;
  unload_platforms : ConfigEntry -> list Platform -> outcome bool
}.

(** ** Helpers of the embedding *)

(** [d.pop(k)] without a default *)
Definition dict_pop {V} (k : string) (d : gmap string V) : outcome (gmap string V) :=
  match d !! k with
  | Some _ => Ok (delete k d)
  | None => Raise (KeyError (VStr k))
  end.

(** [asyncio.gather] of two awaitables: both results, or the exception that
    is raised first. *)
Definition gather {A B} (second_first : bool) (a : outcome A) (b : outcome B)
    : outcome (A * B) :=
  match a, b with
  | Ok x, Ok y => Ok (x, y)
  | Raise e, Ok _ => Raise e
  | Ok _, Raise e => Raise e
  | Raise ea, Raise eb => Raise (if second_first then eb else ea)
  end.

(** Truthiness of what [dict.get] returns for a [StrEnum] value: [None] and
    the empty string are falsy. *)
Definition truthy (o : option Platform) : bool :=
  match o with
  | Some p => negb (String.eqb p "")
  | None => false
  end.

(** [a or b] *)
Definition py_or (a b : option Platform) : option Platform :=
  if truthy a then a else b.

(** Truthiness of an optional [IntEnum] member *)
Definition enum_truthy (o : option IntEnumMember) : bool :=
  match o with
  | Some m => negb (enum_value m =? 0)%Z
  | None => false
  end.

Definition alloc (o : object) : M HomeAssistant loc :=
  fun h => (Ok (length (heap h)), set_heap (heap h ++ [o]) h).

Definition read_coordinator (l : loc) : M HomeAssistant OverkizDataUpdateCoordinator :=
  fun h =>
    match heap h !! l with
    | Some (OCoordinator c) => (Ok c, h)
    | _ => (Raise (OtherException "ReferenceError"), h)
    end.

Definition write_coordinator (l : loc) (c : OverkizDataUpdateCoordinator)
    : M HomeAssistant unit :=
  modify (fun h => set_heap (<[l := OCoordinator c]> (heap h)) h).

Definition read_platforms (l : loc) : M HomeAssistant (gmap Platform (list Device)) :=
  fun h =>
    match heap h !! l with
    | Some (OPlatforms p) => (Ok p, h)
    | _ => (Raise (OtherException "ReferenceError"), h)
    end.

Definition write_platforms (l : loc) (p : gmap Platform (list Device))
    : M HomeAssistant unit :=
  modify (fun h => set_heap (<[l := OPlatforms p]> (heap h)) h).

(** [hass.data[DOMAIN][entry_id]], when both keys are there *)
Definition lookup_bundle (domain : string) (h : HomeAssistant) (id : string)
    : option HomeAssistantOverkizData :=
  match hass_data h !! domain with
  | Some registry => registry !! id
  | None => None
  end.

(** ** Framework calls *)

(** [hass.config_entries.async_update_entry(entry, data=...)]: nothing
    happens when the data is what the entry already holds; otherwise the
    entry takes the data and is handed to the store. *)
Definition async_update_entry (new_data : gmap string value)
    : M (ConfigEntry * HomeAssistant) bool :=
  fun st =>
    let '(entry, hass) := st in
    if decide (data entry = new_data) then (Ok false, st)
    else
      let entry' := set_data new_data entry in
      (Ok true, (entry', set_saved_entries (saved_entries hass ++ [entry']) hass)).

(** [async_create_clientsession(hass, verify_ssl=...)]; the keyword
    defaults to [True]. *)
Definition async_create_clientsession (verify : bool) : ClientSession :=
  {| verify_ssl := verify |}.

(** [device_registry.async_get_or_create]: the record with the same
    identifiers is replaced, a new one is added at the end. *)
Fixpoint get_or_create (d : DeviceEntry) (registry : list DeviceEntry) : list DeviceEntry :=
  match registry with
  | [] => [d]
  | r :: rest =>
      if decide (identifiers r = identifiers d) then d :: rest
      else r :: get_or_create d rest
  end.

Section Integration.

Variable K : Const.
Variable env : Env.

Definition async_get_or_create (d : DeviceEntry) : M HomeAssistant unit :=
  match get_or_create_error env d with
  | Some e => raise e
  | None => modify (fun h => set_device_registry (get_or_create d (device_registry h)) h)
  end.

Definition async_forward_entry_setups (entry : ConfigEntry) (ps : list Platform)
    : M HomeAssistant unit :=
  match forward_entry_setups env entry ps with
  | Ok _ => modify (fun h => set_forwarded (<[entry_id entry := ps]> (forwarded h)) h)
  | Raise e => raise e
  end.

Definition async_unload_platforms (entry : ConfigEntry) (ps : list Platform)
    : M HomeAssistant bool :=
  match unload_platforms env entry ps with
  | Ok true => modify (fun h => set_forwarded (delete (entry_id entry) (forwarded h)) h) ;;! ret true
  | Ok false => ret false
  | Raise e => raise e
  end.

(** Modelled from the spec: the constructor of the coordinator
    ([coordinator.py] is not part of the sources) keeps its arguments;
    [is_stateless] says that every device it is given reports an assumed
    state; [data] is unset until the first refresh. *)
Definition new_coordinator (name : string) (client : OverkizClient)
    (devs : list Device) (place : Place) (interval : timedelta) (id : string)
    : OverkizDataUpdateCoordinator :=
  {| coordinator_name := name;
     coordinator_client := client;
     coordinator_devices := devs;
     places := place;
     update_interval := interval;
     config_entry_id := id;
     is_stateless := forallb (reports_assumed_state env) devs;
     coordinator_data := None |}.

(** Modelled from the spec: the first refresh of the coordinator
    ([coordinator.py] and the framework's base class are not part of the
    sources) either fails or fills [data]. *)
Definition async_config_entry_first_refresh (l : loc) : M HomeAssistant unit :=
  do! c := read_coordinator l in
  do! d := lift (first_refresh env c) in
  write_coordinator l (set_coordinator_data (Some d) c).

(** ** [async_migrate_entry] (lines 57-74)

    The entry is a mutable object: it is part of the state. *)
Definition async_migrate_entry : M (ConfigEntry * HomeAssistant) bool :=
  do! st := get in
  let entry := st.1 in
  if decide (version entry = 1%Z) then
    let v2_entry_data := data entry in
    do! hub := lift (getitem (data entry) (CONF_HUB K)) in
    let v2_entry_data := <[CONF_SERVER K := hub]> v2_entry_data in
    do! v2_entry_data := lift (dict_pop (CONF_HUB K) v2_entry_data) in
    let v2_entry_data := <[CONF_API_TYPE K := APIType_value CLOUD]> v2_entry_data in
    modify (fun st => (set_version 2 st.1, st.2)) ;;!
    do! _ := async_update_entry v2_entry_data in
    ret true
  else ret true.

(** ** [async_setup_entry] (lines 77-194) *)

(** [SUPPORTED_SERVERS[key]]: only a string can be one of its keys. *)
Definition supported_server (key : value) : outcome OverkizServer :=
  match key with
  | VStr s => getitem (SUPPORTED_SERVERS env) s
  | _ => Raise (KeyError key)
  end.

(** Lines 80-108: the client, local or cloud. *)
Definition client_factory (entry : ConfigEntry) : outcome OverkizClient :=
  try! api_type := getitem (data entry) (CONF_API_TYPE K) in
  if decide (api_type = APIType_value LOCAL) then
    try! host := getitem (data entry) CONF_HOST in
    try! tok := getitem (data entry) CONF_TOKEN in
    let sess := async_create_clientsession false in
    Ok {| username := VStr "";
          password := VStr "";
          token := Some tok;
          session := sess;
          server := generate_local_server env host |}
  else
    try! user := getitem (data entry) CONF_USERNAME in
    try! pass := getitem (data entry) CONF_PASSWORD in
    try! key := getitem (data entry) (CONF_SERVER K) in
    try! srv := supported_server key in
    let sess := async_create_clientsession true in
    Ok {| username := user;
          password := pass;
          token := None;
          session := sess;
          server := srv |}.

(** Lines 111-118: the body of the [try]. *)
Definition login_and_fetch (client : OverkizClient) : outcome (Setup * list Scenario) :=
  try! _ := login env client in
  gather (scenarios_fail_first env) (get_setup env client) (get_scenarios env client).

(** Lines 119-131: the [except] clauses, in their order; [ClientConnectorError]
    and [ServerDisconnectedError] are subclasses of [ClientError]; an
    exception of no listed class propagates as it is. *)
Definition except_clauses (exception : exn) : exn :=
  match exception with
  | BadCredentialsException | NotSuchTokenException =>
      ConfigEntryAuthFailed "Invalid authentication" (Some exception)
  | TooManyRequestsException =>
      ConfigEntryNotReady "Too many requests, try again later" (Some exception)
  | TimeoutError | ClientError | ClientConnectorError | ServerDisconnectedError =>
      ConfigEntryNotReady "Failed to connect" (Some exception)
  | MaintenanceException =>
      ConfigEntryNotReady "Server is down for maintenance" (Some exception)
  | _ => exception
  end.

(** Lines 110-131 *)
Definition connect (client : OverkizClient) : outcome (Setup * list Scenario) :=
  match login_and_fetch client with
  | Ok r => Ok r
  | Raise exception => Raise (except_clauses exception)
  end.

(** Lines 172-174: the platform of a device, widget first. *)
Definition device_platform (device : Device) : option Platform :=
  py_or (OVERKIZ_DEVICE_TO_PLATFORM K !! widget device)
        (OVERKIZ_DEVICE_TO_PLATFORM K !! ui_class device).

(** [platforms[platform].append(device)] on a [defaultdict(list)] *)
Definition append_device (platform : Platform) (device : Device)
    (ps : gmap Platform (list Device)) : gmap Platform (list Device) :=
  <[platform := (default [] (ps !! platform) ++ [device])]> ps.

(** Lines 172-175: the body of the device loop, on the shared dictionary. *)
Definition map_device (l : loc) (device : Device) : M HomeAssistant unit :=
  let platform := device_platform device in
  if truthy platform then
    match platform with
    | Some p =>
        do! ps := read_platforms l in
        write_platforms l (append_device p device ps)
    | None => ret tt
    end
  else ret tt.

(** Lines 182-190: the arguments of [async_get_or_create]. *)
Definition gateway_device (entry : ConfigEntry) (client : OverkizClient)
    (gateway : Gateway) : DeviceEntry :=
  {| device_config_entry_id := entry_id entry;
     identifiers := [(DOMAIN K, gateway_id gateway)];
     model :=
       if enum_truthy (sub_type gateway)
       then beautify_name <$> sub_type gateway
       else None;
     device_manufacturer := manufacturer (server client);
     device_name :=
       if enum_truthy (gateway_type gateway)
       then from_option beautify_name (gateway_id gateway) (gateway_type gateway)
       else gateway_id gateway;
     sw_version := protocol_version (connectivity gateway);
     device_configuration_url := configuration_url (server client) |}.

(** Line 158: [hass.data.setdefault(DOMAIN, {})[entry.entry_id] = ...] *)
Definition store_bundle (id : string) (b : HomeAssistantOverkizData)
    : M HomeAssistant unit :=
  modify (fun h =>
    let registry := default ∅ (hass_data h !! DOMAIN K) in
    set_hass_data (<[DOMAIN K := <[id := b]> registry]> (hass_data h)) h).

(** Lines 133-154: the coordinator, its first refresh, and the interval. *)
Definition prime_coordinator (entry : ConfigEntry) (client : OverkizClient)
    (setup : Setup) : M HomeAssistant loc :=
  do! l := alloc (OCoordinator
                    (new_coordinator "device events" client (devices setup)
                       (root_place setup) (UPDATE_INTERVAL K) (entry_id entry))) in
  async_config_entry_first_refresh l ;;!
  do! c := read_coordinator l in
  (if is_stateless c
   then write_coordinator l (set_update_interval (UPDATE_INTERVAL_ALL_ASSUMED_STATE K) c)
   else ret tt) ;;!
  ret l.

(** Lines 156-175: the bundle is stored with an empty [platforms], which
    the device loop then fills through the same reference. *)
Definition map_platforms (entry : ConfigEntry) (l : loc) (scens : list Scenario)
    : M HomeAssistant unit :=
  do! pl := alloc (OPlatforms ∅) in
  store_bundle (entry_id entry)
    {| coordinator := l; platforms := pl; scenarios := scens |} ;;!
  do! c := read_coordinator l in
  do! values := lift (match coordinator_data c with
                      | Some d => Ok (map snd d)
                      | None => Raise (AttributeError "values")
                      end) in
  for_each values (map_device pl).

(** Lines 177-190 *)
Definition register_gateways (entry : ConfigEntry) (client : OverkizClient)
    (setup : Setup) : M HomeAssistant unit :=
  for_each (gateways setup)
    (fun gateway => async_get_or_create (gateway_device entry client gateway)).

Definition async_setup_entry (entry : ConfigEntry) : M HomeAssistant bool :=
  do! client := lift (client_factory entry) in
  do! fetched := lift (connect client) in
  let setup := fetched.1 in
  let scens := fetched.2 in
  do! l := prime_coordinator entry client setup in
  map_platforms entry l scens ;;!
  register_gateways entry client setup ;;!
  async_forward_entry_setups entry (PLATFORMS K) ;;!
  ret true.

(** ** [async_unload_entry] (lines 197-202) *)
Definition async_unload_entry (entry : ConfigEntry) : M HomeAssistant bool :=
  do! unload_ok := async_unload_platforms entry (PLATFORMS K) in
  (if unload_ok : bool then
     do! hass := get in
     do! registry := lift (getitem (hass_data hass) (DOMAIN K)) in
     do! registry' := lift (dict_pop (entry_id entry) registry) in
     modify (fun h => set_hass_data (<[DOMAIN K := registry']> (hass_data h)) h)
   else ret tt) ;;!
  ret unload_ok.

End Integration.

(** ** Closed forms used in the statements *)

Section Closed_forms.

Variable K : Const.
Variable env : Env.

(** The coordinator as lines 133-154 leave it when the first refresh has
    produced [d]. *)
Definition primed_coordinator (entry : ConfigEntry) (client : OverkizClient)
    (setup : Setup) (d : list (string * Device)) : OverkizDataUpdateCoordinator :=
  let c := set_coordinator_data (Some d)
             (new_coordinator env "device events" client (devices setup)
                (root_place setup) (UPDATE_INTERVAL K) (entry_id entry)) in
  if is_stateless c
  then set_update_interval (UPDATE_INTERVAL_ALL_ASSUMED_STATE K) c
  else c.

(** One iteration of the device loop, on the dictionary itself. *)
Definition map_device_on (ps : gmap Platform (list Device)) (device : Device)
    : gmap Platform (list Device) :=
  let platform := device_platform K device in
  if truthy platform then
    match platform with
    | Some p => append_device p device ps
    | None => ps
    end
  else ps.

(** [platforms[p]] read without creating the key *)
Definition bucket (ps : gmap Platform (list Device)) (p : Platform) : list Device :=
  default [] (ps !! p).

(** The classification in the words of the specification: the widget
    identifier is looked up first, the UI class only when that misses. *)
Definition widget_then_ui_class (device : Device) : option Platform :=
  match OVERKIZ_DEVICE_TO_PLATFORM K !! widget device with
  | Some p => Some p
  | None => OVERKIZ_DEVICE_TO_PLATFORM K !! ui_class device
  end.

(** Every platform of the mapping is a member of [Platform], hence a
    non-empty string. *)
Definition platforms_truthy : Prop :=
  map_Forall (fun _ p => p ≠ "") (OVERKIZ_DEVICE_TO_PLATFORM K).

(** Lines 177-194, after the device loop. *)
Definition register_and_forward (entry : ConfigEntry) (client : OverkizClient)
    (setup : Setup) : M HomeAssistant bool :=
  register_gateways K env entry client setup ;;!
  async_forward_entry_setups env entry (PLATFORMS K) ;;!
  ret true.

(** The state in which lines 77-175 leave [hass] when the first refresh
    has produced [d]: the coordinator and the dictionary are the two newest
    objects of the heap, and the bundle refers to them. *)
Definition platform_mapped (entry : ConfigEntry) (client : OverkizClient)
    (setup : Setup) (scens : list Scenario) (d : list (string * Device))
    (hass : HomeAssistant) : HomeAssistant :=
  let n := length (heap hass) in
  set_hass_data
    (<[DOMAIN K :=
         <[entry_id entry := {| coordinator := n; platforms := S n; scenarios := scens |}]>
           (default ∅ (hass_data hass !! DOMAIN K))]> (hass_data hass))
    (set_heap
       (heap hass ++ [OCoordinator (primed_coordinator entry client setup d);
                      OPlatforms (foldl map_device_on ∅ (map snd d))])
       hass).

End Closed_forms.

(** ** Sample configuration, collaborators and entries *)

Module Sample.

Definition K : Const :=
  {| CONF_API_TYPE := "api_type";
     CONF_HUB := "hub";
     CONF_SERVER := "server";
     DOMAIN := "overkiz_local";
     OVERKIZ_DEVICE_TO_PLATFORM :=
       {[ "Awning" := "cover";
          "Light" := "light";
          "WaterHeatingSystem" := "water_heater";
          "DomesticHotWaterTank" := "switch" ]};
     PLATFORMS := ["cover"; "light"; "switch"; "water_heater"];
     UPDATE_INTERVAL := 30;
     UPDATE_INTERVAL_ALL_ASSUMED_STATE := 3600 |}.

Definition somfy_europe : OverkizServer :=
  {| server_name := "Somfy (Europe)";
     endpoint := "https://tahomalink.com/enduser-mobile-web/enduserAPI/";
     manufacturer := "Somfy";
     configuration_url := Some "https://www.tahomalink.com" |}.

Definition local_server (host : value) : OverkizServer :=
  {| server_name := "Somfy Developer Mode";
     endpoint := match host with VStr h => h | _ => "" end;
     manufacturer := "Somfy";
     configuration_url := None |}.

Definition awning : Device :=
  {| device_url := "io://1234-5678-9012/1";
     label := "Terrace";
     widget := "PositionableHorizontalAwning";
     ui_class := "Awning" |}.

Definition tank : Device :=
  {| device_url := "io://1234-5678-9012/2";
     label := "Boiler";
     widget := "DomesticHotWaterTank";
     ui_class := "WaterHeatingSystem" |}.

Definition pod : Device :=
  {| device_url := "internal://1234-5678-9012/pod/0";
     label := "Box";
     widget := "Pod";
     ui_class := "Pod" |}.

Definition gateway : Gateway :=
  {| gateway_id := "1234-5678-9012";
     gateway_type := Some {| enum_value := 29; beautify_name := "Tahoma" |};
     sub_type := Some {| enum_value := 1; beautify_name := "Tahoma Basic" |};
     connectivity := {| status := "OK"; protocol_version := "2023.1.4" |} |}.

Definition setup : Setup :=
  {| devices := [awning; tank; pod];
     gateways := [gateway];
     root_place := {| place_oid := "root"; place_label := "Home" |} |}.

Definition scenario : Scenario :=
  {| oid := "a1b2"; scenario_label := "Good night" |}.

(** Collaborators that answer as told at the login, at the forwarding and
    at the platform unload, and succeed everywhere else. *)
Definition env_with (login_result : outcome unit) (forward_result : outcome unit)
    (unload_result : outcome bool) : Env :=
  {| SUPPORTED_SERVERS := {[ "somfy_europe" := somfy_europe ]};
     generate_local_server := local_server;
     reports_assumed_state := fun device => String.eqb (ui_class device) "Awning";
     login := fun _ => login_result;
     get_setup := fun _ => Ok setup;
     get_scenarios := fun _ => Ok [scenario];
     scenarios_fail_first := false;
     first_refresh := fun c =>
       Ok (map (fun device => (device_url device, device)) (coordinator_devices c));
     get_or_create_error := fun _ => None;
     forward_entry_setups := fun _ _ => forward_result;
     unload_platforms := fun _ _ => unload_result |}.

Definition env : Env := env_with (Ok tt) (Ok tt) (Ok true).

Definition entry_v1 : ConfigEntry :=
  {| entry_id := "0123";
     version := 1;
     data := {[ "username" := VStr "user@example.org";
                "password" := VStr "secret";
                "hub" := VStr "somfy_europe" ]} |}.

Definition entry_cloud : ConfigEntry :=
  {| entry_id := "0123";
     version := 2;
     data := {[ "username" := VStr "user@example.org";
                "password" := VStr "secret";
                "server" := VStr "somfy_europe";
                "api_type" := VStr "cloud" ]} |}.

Definition entry_local : ConfigEntry :=
  {| entry_id := "4567";
     version := 2;
     data := {[ "host" := VStr "gateway-1234-5678-9012.local:8443";
                "token" := VStr "0f1e2d3c";
                "api_type" := VStr "local" ]} |}.

Definition entry_local_with_credentials : ConfigEntry :=
  {| entry_id := "4567";
     version := 2;
     data := <["username" := VStr "user@example.org"]>
               (<["password" := VStr "secret"]> (data entry_local)) |}.

Definition hass : HomeAssistant :=
  {| hass_data := ∅;
     heap := [];
     saved_entries := [];
     device_registry := [];
     forwarded := ∅ |}.

(** The state after the cloud entry, then also the local one, were set up. *)
Definition hass_loaded : HomeAssistant :=
  (async_setup_entry K env entry_cloud hass).2.

Definition hass_two : HomeAssistant :=
  (async_setup_entry K env entry_local hass_loaded).2.

Definition env_forward_fails : Env :=
  env_with (Ok tt) (Raise (OtherException "HomeAssistantError")) (Ok true).

Definition env_bad_credentials : Env :=
  env_with (Raise BadCredentialsException) (Ok tt) (Ok true).

Definition env_timeout : Env :=
  env_with (Raise TimeoutError) (Ok tt) (Ok true).

Definition cloud_client : OverkizClient :=
  {| username := VStr "user@example.org";
     password := VStr "secret";
     token := None;
     session := async_create_clientsession true;
     server := somfy_europe |}.

End Sample.

(** Further sample data: a refresh that times out, a login that fails with
    an exception of no listed class, and a version-1 entry without hub. *)
Module Sample_edges.

Definition env_refresh_fails : Env :=
  {| SUPPORTED_SERVERS := SUPPORTED_SERVERS Sample.env;
     generate_local_server := generate_local_server Sample.env;
     reports_assumed_state := reports_assumed_state Sample.env;
     login := login Sample.env;
     get_setup := get_setup Sample.env;
     get_scenarios := get_scenarios Sample.env;
     scenarios_fail_first := scenarios_fail_first Sample.env;
     first_refresh := fun _ => Raise TimeoutError;
     get_or_create_error := get_or_create_error Sample.env;
     forward_entry_setups := forward_entry_setups Sample.env;
     unload_platforms := unload_platforms Sample.env |}.


Definition entry_v1_without_hub : ConfigEntry :=
  {| entry_id := "89ab";
     version := 1;
     data := {[ "username" := VStr "user@example.org";
                "password" := VStr "secret" ]} |}.

Definition local_client : OverkizClient :=
  {| username := VStr "";
     password := VStr "";
     token := Some (VStr "0f1e2d3c");
     session := {| verify_ssl := false |};
     server := Sample.local_server (VStr "gateway-1234-5678-9012.local:8443") |}.

Definition refreshed : list (string * Device) :=
  [(device_url Sample.awning, Sample.awning);
   (device_url Sample.tank, Sample.tank);
   (device_url Sample.pod, Sample.pod)].

End Sample_edges.

(** * Properties *)

(** ** Migration *)

Section Migration.

Variable K : Const.

Lemma getitem_Some {V} (d : gmap string V) k v :
  d !! k = Some v -> getitem d k = Ok v.
Proof. intros H. unfold getitem. by rewrite H. Qed.

Lemma getitem_None {V} (d : gmap string V) k :
  d !! k = None -> getitem d k = Raise (KeyError (VStr k)).
Proof. intros H. unfold getitem. by rewrite H. Qed.

Lemma migrate_other_version entry hass :
  version entry ≠ 1%Z ->
  async_migrate_entry K (entry, hass) = (Ok true, (entry, hass)).
Proof.
  intros Hv. unfold async_migrate_entry, bind, get. simpl.
  destruct (decide (version entry = 1%Z)); [contradiction | reflexivity].
Qed.

Lemma migrate_v1_missing_hub entry hass :
  version entry = 1%Z ->
  data entry !! CONF_HUB K = None ->
  async_migrate_entry K (entry, hass)
  = (Raise (KeyError (VStr (CONF_HUB K))), (entry, hass)).
Proof.
  intros Hv Hh. unfold async_migrate_entry, bind, get, lift. simpl.
  destruct (decide (version entry = 1%Z)); [| contradiction].
  by rewrite (getitem_None _ _ Hh).
Qed.

(** Whatever the three names are, a version-1 entry that has the hub field
    leaves the migration at version 2. *)
Lemma migrate_v1_version entry hass hub :
  version entry = 1%Z ->
  data entry !! CONF_HUB K = Some hub ->
  exists entry' hass',
    async_migrate_entry K (entry, hass) = (Ok true, (entry', hass'))
    /\ version entry' = 2%Z.
Proof.
  intros Hv Hh. unfold async_migrate_entry, bind, get, lift, modify. simpl.
  destruct (decide (version entry = 1%Z)); [| contradiction].
  rewrite (getitem_Some _ _ _ Hh). unfold dict_pop. simpl.
  assert (is_Some (<[CONF_SERVER K:=hub]> (data entry) !! CONF_HUB K)) as [x ->].
  { rewrite lookup_insert. case_decide; eauto. }
  simpl. unfold async_update_entry. simpl.
  case_decide; simpl; eexists _, _; split; eauto.
Qed.

(** C3: a version-1 entry leaves the migration at version 2 with the
    server field holding the old hub value, no hub field, the API type
    [cloud] and every other field as it was; the migrated entry is handed to
    the store and the call returns [True].  The three field names of
    [.const] are taken to be distinct. *)
Theorem migrate_v1_to_v2 entry hass hub :
  CONF_SERVER K ≠ CONF_HUB K ->
  CONF_API_TYPE K ≠ CONF_HUB K ->
  CONF_API_TYPE K ≠ CONF_SERVER K ->
  version entry = 1%Z ->
  data entry !! CONF_HUB K = Some hub ->
  exists entry',
    async_migrate_entry K (entry, hass)
    = (Ok true, (entry', set_saved_entries (saved_entries hass ++ [entry']) hass))
    /\ entry_id entry' = entry_id entry
    /\ version entry' = 2%Z
    /\ data entry' !! CONF_SERVER K = Some hub
    /\ data entry' !! CONF_HUB K = None
    /\ data entry' !! CONF_API_TYPE K = Some (VStr "cloud")
    /\ forall k, k ≠ CONF_SERVER K -> k ≠ CONF_HUB K -> k ≠ CONF_API_TYPE K ->
         data entry' !! k = data entry !! k.
Proof.
  intros Hsh Hah Has Hv Hh.
  unfold async_migrate_entry, bind, get, lift, modify. simpl.
  destruct (decide (version entry = 1%Z)); [| contradiction].
  rewrite (getitem_Some _ _ _ Hh). unfold dict_pop.
  rewrite lookup_insert_ne by done. rewrite Hh.
  unfold async_update_entry. simpl. case_decide as Hsame.
  - exfalso. apply (f_equal (fun d => d !! CONF_HUB K)) in Hsame.
    rewrite Hh, lookup_insert_ne, lookup_delete_eq in Hsame by done. discriminate.
  - eexists. split; [reflexivity |]. simpl.
    repeat split.
    + rewrite lookup_insert_ne, lookup_delete_ne, lookup_insert_eq by done. done.
    + rewrite lookup_insert_ne, lookup_delete_eq by done. done.
    + by rewrite lookup_insert_eq.
    + intros k Hks Hkh Hka.
      rewrite lookup_insert_ne, lookup_delete_ne, lookup_insert_ne by done. done.
Qed.

(** C4: on an entry whose version is not 1 the migration changes neither
    the entry nor the store and returns [True]; and running it a second
    time, on the state the first run left, gives the first run's result and
    leaves that state as it is. *)
Theorem migrate_noop_and_idempotent :
  (forall entry hass,
      version entry ≠ 1%Z ->
      async_migrate_entry K (entry, hass) = (Ok true, (entry, hass)))
  /\ (forall st,
         async_migrate_entry K (async_migrate_entry K st).2
         = async_migrate_entry K st).
Proof.
  split; [apply migrate_other_version |].
  intros [entry hass].
  destruct (decide (version entry = 1%Z)) as [Hv | Hv].
  - destruct (data entry !! CONF_HUB K) as [hub |] eqn:Hh.
    + destruct (migrate_v1_version entry hass hub Hv Hh)
        as (entry' & hass' & Hrun & Hv2).
      rewrite Hrun. simpl. apply migrate_other_version. rewrite Hv2. done.
    + rewrite (migrate_v1_missing_hub _ _ Hv Hh). simpl.
      apply (migrate_v1_missing_hub _ _ Hv Hh).
  - rewrite (migrate_other_version _ _ Hv). simpl.
    apply (migrate_other_version _ _ Hv).
Qed.

End Migration.

(** ** Teardown *)

Section Teardown.

Variable K : Const.
Variable env : Env.

(** The three ways [async_unload_entry] can go once the platform unload
    has answered [True]. *)
Lemma unload_ok_run entry hass :
  unload_platforms env entry (PLATFORMS K) = Ok true ->
  let h1 := set_forwarded (delete (entry_id entry) (forwarded hass)) hass in
  async_unload_entry K env entry hass =
    match hass_data hass !! DOMAIN K with
    | None => (Raise (KeyError (VStr (DOMAIN K))), h1)
    | Some registry =>
        match registry !! entry_id entry with
        | None => (Raise (KeyError (VStr (entry_id entry))), h1)
        | Some _ =>
            (Ok true,
             set_hass_data
               (<[DOMAIN K := delete (entry_id entry) registry]> (hass_data hass)) h1)
        end
    end.
Proof.
  intros Hu. unfold async_unload_entry, async_unload_platforms, bind, get, lift, modify, ret.
  rewrite Hu. simpl. unfold getitem.
  destruct (hass_data hass !! DOMAIN K) as [registry |]; [| reflexivity].
  unfold dict_pop. destruct (registry !! entry_id entry); reflexivity.
Qed.

Lemma unload_failed_run entry hass :
  unload_platforms env entry (PLATFORMS K) = Ok false ->
  async_unload_entry K env entry hass = (Ok false, hass).
Proof.
  intros Hu. unfold async_unload_entry, async_unload_platforms, bind, ret.
  rewrite Hu. reflexivity.
Qed.

Lemma unload_raise_run entry hass e :
  unload_platforms env entry (PLATFORMS K) = Raise e ->
  async_unload_entry K env entry hass = (Raise e, hass).
Proof.
  intros Hu. unfold async_unload_entry, async_unload_platforms, bind, raise.
  rewrite Hu. reflexivity.
Qed.

(** C2: with the entry's bundle stored and the platform unload answering
    [ok], [async_unload_entry] returns exactly [ok]; afterwards the bundle
    is gone if and only if [ok] is [True], and when [ok] is [False] the very
    same bundle is still found. *)
Theorem unload_entry_removes_iff_ok entry hass ok b :
  unload_platforms env entry (PLATFORMS K) = Ok ok ->
  lookup_bundle (DOMAIN K) hass (entry_id entry) = Some b ->
  exists hass',
    async_unload_entry K env entry hass = (Ok ok, hass')
    /\ (lookup_bundle (DOMAIN K) hass' (entry_id entry) = None <-> ok = true)
    /\ (ok = false -> lookup_bundle (DOMAIN K) hass' (entry_id entry) = Some b).
Proof.
  intros Hu Hb. destruct ok.
  - rewrite (unload_ok_run _ _ Hu). unfold lookup_bundle in Hb.
    destruct (hass_data hass !! DOMAIN K) as [registry |]; [| discriminate].
    rewrite Hb. eexists. split; [reflexivity |]. split; [| discriminate].
    split; [done |]. intros _. unfold lookup_bundle. simpl.
    rewrite lookup_insert_eq. apply lookup_delete_eq.
  - rewrite (unload_failed_run _ _ Hu). exists hass. split; [reflexivity |].
    split; [| done]. rewrite Hb. split; discriminate.
Qed.

(** C10: whatever the platform unload answers, and whether or not the call
    raises, the bundle found under any other domain or any other entry
    identifier is the one found before the call. *)
Theorem unload_entry_frame entry hass domain other :
  domain ≠ DOMAIN K \/ other ≠ entry_id entry ->
  lookup_bundle domain (async_unload_entry K env entry hass).2 other
  = lookup_bundle domain hass other.
Proof.
  intros Hother.
  destruct (unload_platforms env entry (PLATFORMS K)) as [[|] | e] eqn:Hu.
  - rewrite (unload_ok_run _ _ Hu).
    destruct (hass_data hass !! DOMAIN K) as [registry |] eqn:Hd; [| reflexivity].
    destruct (registry !! entry_id entry) eqn:Hr; [| reflexivity].
    unfold lookup_bundle. simpl.
    destruct (decide (domain = DOMAIN K)) as [-> | Hne].
    + rewrite lookup_insert_eq, Hd. destruct Hother as [? | Hid]; [done |].
      by rewrite lookup_delete_ne.
    + by rewrite lookup_insert_ne.
  - by rewrite (unload_failed_run _ _ Hu).
  - by rewrite (unload_raise_run _ _ _ Hu).
Qed.

End Teardown.

(** ** Client construction and login *)

Section Connection.

Variable K : Const.
Variable env : Env.

Lemma client_factory_local entry :
  data entry !! CONF_API_TYPE K = Some (APIType_value LOCAL) ->
  client_factory K env entry =
    try! host := getitem (data entry) CONF_HOST in
    try! tok := getitem (data entry) CONF_TOKEN in
    Ok {| username := VStr "";
          password := VStr "";
          token := Some tok;
          session := async_create_clientsession false;
          server := generate_local_server env host |}.
Proof.
  intros Hl. unfold client_factory. rewrite (getitem_Some _ _ _ Hl). simpl.
  destruct (decide (VStr "local" = VStr "local")); [reflexivity | done].
Qed.

(** C5: for two entries whose API type is [local] and whose data agree on
    every key but the username and the password, the client construction
    gives the same result; and a client it builds has empty credentials and
    a session that does not verify certificates. *)
Theorem local_client_ignores_credentials e1 e2 :
  data e1 !! CONF_API_TYPE K = Some (APIType_value LOCAL) ->
  data e2 !! CONF_API_TYPE K = Some (APIType_value LOCAL) ->
  (forall k, k ≠ CONF_USERNAME -> k ≠ CONF_PASSWORD -> data e1 !! k = data e2 !! k) ->
  client_factory K env e1 = client_factory K env e2
  /\ forall c, client_factory K env e1 = Ok c ->
       verify_ssl (session c) = false
       /\ username c = VStr "" /\ password c = VStr "".
Proof.
  intros H1 H2 Hagree.
  rewrite (client_factory_local _ H1), (client_factory_local _ H2).
  unfold getitem.
  rewrite <- (Hagree CONF_HOST) by done.
  rewrite <- (Hagree CONF_TOKEN) by done.
  split; [reflexivity |].
  intros c. destruct (data e1 !! CONF_HOST); [| discriminate].
  destruct (data e1 !! CONF_TOKEN); [| discriminate].
  simpl. intros [= <-]. done.
Qed.

Lemma setup_connect_failure entry hass client exception :
  client_factory K env entry = Ok client ->
  login_and_fetch env client = Raise exception ->
  async_setup_entry K env entry hass = (Raise (except_clauses exception), hass).
Proof.
  intros Hc Hl. unfold async_setup_entry, bind, lift, connect.
  rewrite Hc, Hl. reflexivity.
Qed.

Lemma login_and_fetch_raises client exception :
  login env client = Raise exception
  \/ (login env client = Ok tt
      /\ gather (scenarios_fail_first env) (get_setup env client)
           (get_scenarios env client) = Raise exception) ->
  login_and_fetch env client = Raise exception.
Proof.
  unfold login_and_fetch. intros [-> | [-> ->]]; reflexivity.
Qed.

(** C6: when the client is built and the login, or after it the gathered
    inventory fetch, raises a bad-credentials or no-such-token error,
    [async_setup_entry] raises [ConfigEntryAuthFailed] caused by it and
    leaves the state, so the heap too, as it was: no coordinator exists that
    did not before. *)
Theorem setup_auth_failed entry hass client exception :
  client_factory K env entry = Ok client ->
  login env client = Raise exception
  \/ (login env client = Ok tt
      /\ gather (scenarios_fail_first env) (get_setup env client)
           (get_scenarios env client) = Raise exception) ->
  exception = BadCredentialsException \/ exception = NotSuchTokenException ->
  async_setup_entry K env entry hass
  = (Raise (ConfigEntryAuthFailed "Invalid authentication" (Some exception)), hass)
  /\ heap (async_setup_entry K env entry hass).2 = heap hass.
Proof.
  intros Hc Hl Hk. apply login_and_fetch_raises in Hl.
  rewrite (setup_connect_failure _ _ _ _ Hc Hl).
  split; [| reflexivity]. destruct Hk as [-> | ->]; reflexivity.
Qed.

(** C7: when the client is built and the login, or after it the gathered
    inventory fetch, raises a too-many-requests, timeout, client, connector,
    server-disconnect or maintenance error, [async_setup_entry] raises
    [ConfigEntryNotReady] caused by it and leaves the state, so the heap
    too, as it was: no coordinator exists that did not before. *)
Theorem setup_not_ready entry hass client exception :
  client_factory K env entry = Ok client ->
  login env client = Raise exception
  \/ (login env client = Ok tt
      /\ gather (scenarios_fail_first env) (get_setup env client)
           (get_scenarios env client) = Raise exception) ->
  exception ∈ [TooManyRequestsException; TimeoutError; ClientConnectorError;
               ClientError; ServerDisconnectedError; MaintenanceException] ->
  (exists msg,
      async_setup_entry K env entry hass
      = (Raise (ConfigEntryNotReady msg (Some exception)), hass))
  /\ heap (async_setup_entry K env entry hass).2 = heap hass.
Proof.
  intros Hc Hl Hk. apply login_and_fetch_raises in Hl.
  rewrite (setup_connect_failure _ _ _ _ Hc Hl).
  split; [| reflexivity].
  repeat (apply elem_of_cons in Hk as [-> | Hk]; [eexists; reflexivity |]).
  by apply elem_of_nil in Hk.
Qed.

End Connection.

(** ** Setup *)

Section Setup_run.

Variable K : Const.
Variable env : Env.

Lemma set_heap_same h : set_heap (heap h) h = h.
Proof. by destruct h. Qed.

Lemma insert_at_end {A} (l : list A) (x y : A) :
  <[length l := y]> (l ++ [x]) = l ++ [y].
Proof.
  rewrite insert_app_r_alt by lia. by rewrite Nat.sub_diag.
Qed.

Lemma lookup_at_end {A} (l : list A) (x : A) : (l ++ [x]) !! length l = Some x.
Proof. by apply list_lookup_middle. Qed.

(** Lines 133-154 in closed form. *)
Lemma prime_coordinator_run entry client setup hass :
  prime_coordinator K env entry client setup hass =
    let c0 := new_coordinator env "device events" client (devices setup)
                (root_place setup) (UPDATE_INTERVAL K) (entry_id entry) in
    match first_refresh env c0 with
    | Raise e => (Raise e, set_heap (heap hass ++ [OCoordinator c0]) hass)
    | Ok d =>
        (Ok (length (heap hass)),
         set_heap (heap hass ++ [OCoordinator (primed_coordinator K env entry client setup d)])
           hass)
    end.
Proof.
  unfold prime_coordinator, async_config_entry_first_refresh, alloc,
    read_coordinator, write_coordinator, bind, lift, modify, ret.
  simpl. rewrite lookup_at_end.
  destruct (first_refresh env _) as [d | e] eqn:Hr; [| reflexivity].
  simpl. rewrite insert_at_end, lookup_at_end.
  unfold primed_coordinator. simpl.
  destruct (forallb (reports_assumed_state env) (devices setup)); simpl.
  - by rewrite insert_at_end.
  - reflexivity.
Qed.

(** The device loop, run on a heap that holds the dictionary at [pl]. *)
Lemma for_each_map_device pl devs : forall h ps,
  heap h !! pl = Some (OPlatforms ps) ->
  for_each devs (map_device K pl) h
  = (Ok tt, set_heap (<[pl := OPlatforms (foldl (map_device_on K) ps devs)]> (heap h)) h).
Proof.
  induction devs as [| device devs IH]; intros h ps Hpl; simpl.
  - unfold ret. by rewrite list_insert_id, set_heap_same.
  - unfold bind at 1. unfold map_device, map_device_on at 2.
    destruct (truthy (device_platform K device)) eqn:Ht.
    + destruct (device_platform K device) as [p |]; [| discriminate].
      unfold bind, read_platforms, write_platforms, modify. rewrite Hpl.
      assert (pl < length (heap h)) as Hlt by (by eapply lookup_lt_Some).
      rewrite (IH _ (append_device p device ps)); simpl.
      * by rewrite list_insert_insert_eq.
      * by apply list_lookup_insert_eq.
    + unfold ret. by apply IH.
Qed.

(** Lines 156-175 in closed form. *)
Lemma map_platforms_run entry l scens h c d :
  heap h !! l = Some (OCoordinator c) ->
  coordinator_data c = Some d ->
  map_platforms K entry l scens h
  = (Ok tt,
     set_hass_data
       (<[DOMAIN K :=
            <[entry_id entry :=
                {| coordinator := l; platforms := length (heap h); scenarios := scens |}]>
              (default ∅ (hass_data h !! DOMAIN K))]> (hass_data h))
       (set_heap (heap h ++ [OPlatforms (foldl (map_device_on K) ∅ (map snd d))]) h)).
Proof.
  intros Hl Hd.
  unfold map_platforms, alloc, store_bundle, read_coordinator, bind, lift, modify.
  simpl. rewrite lookup_app_l by (by eapply lookup_lt_Some). rewrite Hl, Hd.
  rewrite (for_each_map_device _ _ _ ∅) by apply lookup_at_end.
  simpl. by rewrite insert_at_end.
Qed.

(** Gateway registration and platform forwarding touch neither
    [hass.data] nor the heap. *)
Lemma register_gateways_frame entry client gws : forall h r h',
  for_each gws
    (fun gateway => async_get_or_create env (gateway_device K entry client gateway)) h
  = (r, h') ->
  hass_data h' = hass_data h /\ heap h' = heap h.
Proof.
  induction gws as [| g gws IH]; intros h r h'; simpl.
  - by intros [= <- <-].
  - unfold bind at 1. unfold async_get_or_create at 1.
    destruct (get_or_create_error env _); simpl.
    + by intros [= <- <-].
    + intros Hrun. by apply IH in Hrun.
Qed.

Lemma register_and_forward_frame entry client setup h r h' :
  register_and_forward K env entry client setup h = (r, h') ->
  hass_data h' = hass_data h /\ heap h' = heap h.
Proof.
  unfold register_and_forward, register_gateways, bind.
  destruct (for_each _ _ h) as [[[] | e] h1] eqn:Hg;
    apply register_gateways_frame in Hg as [Hd Hh].
  - unfold async_forward_entry_setups.
    destruct (forward_entry_setups env entry (PLATFORMS K)); simpl;
      intros [= <- <-]; simpl; done.
  - by intros [= <- <-].
Qed.

(** The whole of [async_setup_entry] once the client is built, the
    inventory fetched and the coordinator refreshed. *)
Lemma setup_run entry hass client setup scens d :
  client_factory K env entry = Ok client ->
  connect env client = Ok (setup, scens) ->
  first_refresh env
    (new_coordinator env "device events" client (devices setup) (root_place setup)
       (UPDATE_INTERVAL K) (entry_id entry)) = Ok d ->
  async_setup_entry K env entry hass
  = register_and_forward K env entry client setup
      (platform_mapped K env entry client setup scens d hass).
Proof.
  intros Hc Hf Hr. unfold async_setup_entry.
  unfold bind at 1. unfold lift at 1. rewrite Hc.
  unfold bind at 1. unfold lift at 1. rewrite Hf. simpl.
  unfold bind at 1. rewrite prime_coordinator_run. simpl. rewrite Hr.
  unfold bind at 1.
  erewrite map_platforms_run; [| apply lookup_at_end |].
  2:{ unfold primed_coordinator. by destruct (is_stateless _). }
  unfold register_and_forward, platform_mapped. simpl.
  rewrite length_app, Nat.add_comm. simpl. by rewrite <- app_assoc.
Qed.

Lemma setup_refresh_failure entry hass client setup scens e :
  client_factory K env entry = Ok client ->
  connect env client = Ok (setup, scens) ->
  first_refresh env
    (new_coordinator env "device events" client (devices setup) (root_place setup)
       (UPDATE_INTERVAL K) (entry_id entry)) = Raise e ->
  exists hass',
    async_setup_entry K env entry hass = (Raise e, hass')
    /\ hass_data hass' = hass_data hass.
Proof.
  intros Hc Hf Hr. unfold async_setup_entry.
  unfold bind at 1. unfold lift at 1. rewrite Hc.
  unfold bind at 1. unfold lift at 1. rewrite Hf. simpl.
  unfold bind at 1. rewrite prime_coordinator_run. simpl. rewrite Hr.
  eexists. split; reflexivity.
Qed.

(** What the stored bundle refers to in a state that differs from
    [platform_mapped] at most outside [hass.data] and the heap. *)
Lemma platform_mapped_bundle entry client setup scens d hass h :
  hass_data h = hass_data (platform_mapped K env entry client setup scens d hass) ->
  heap h = heap (platform_mapped K env entry client setup scens d hass) ->
  exists b,
    lookup_bundle (DOMAIN K) h (entry_id entry) = Some b
    /\ scenarios b = scens
    /\ heap h !! coordinator b
       = Some (OCoordinator (primed_coordinator K env entry client setup d))
    /\ heap h !! platforms b
       = Some (OPlatforms (foldl (map_device_on K) ∅ (map snd d))).
Proof.
  intros Hd Hh. eexists. unfold lookup_bundle. rewrite Hd, Hh. simpl.
  rewrite lookup_insert_eq, lookup_insert_eq. split; [reflexivity |]. simpl.
  split; [reflexivity |]. split.
  - by apply list_lookup_middle.
  - rewrite (lookup_app_r _ _ (S _)) by lia.
    by replace (S (length (heap hass)) - length (heap hass)) with 1 by lia.
Qed.

(** Gateway registration stops at the first record the registry refuses. *)
Lemma register_gateways_outcome entry client gws : forall h,
  match (for_each gws
           (fun gateway => async_get_or_create env (gateway_device K entry client gateway)) h).1
  with
  | Ok _ =>
      forall g, g ∈ gws -> get_or_create_error env (gateway_device K entry client g) = None
  | Raise e =>
      exists g, g ∈ gws /\ get_or_create_error env (gateway_device K entry client g) = Some e
  end.
Proof.
  induction gws as [| g gws IH]; intros h; simpl.
  - intros g Hg. by apply elem_of_nil in Hg.
  - unfold bind at 1. unfold async_get_or_create at 1.
    destruct (get_or_create_error env (gateway_device K entry client g)) as [e |] eqn:Hg; simpl.
    + exists g. split; [left | done].
    + specialize (IH (set_device_registry
                        (get_or_create (gateway_device K entry client g) (device_registry h)) h)).
      destruct (for_each gws _ _) as [[[] | e] h1]; simpl in *.
      * intros g' [-> | Hin]%elem_of_cons; auto.
      * destruct IH as (g' & Hin & He). exists g'. split; [by right | done].
Qed.

Lemma register_and_forward_outcome entry client setup h :
  match (register_and_forward K env entry client setup h).1 with
  | Ok b =>
      b = true
      /\ (forall g, g ∈ gateways setup ->
            get_or_create_error env (gateway_device K entry client g) = None)
      /\ forward_entry_setups env entry (PLATFORMS K) = Ok tt
  | Raise e =>
      (exists g, g ∈ gateways setup
                 /\ get_or_create_error env (gateway_device K entry client g) = Some e)
      \/ forward_entry_setups env entry (PLATFORMS K) = Raise e
  end.
Proof.
  unfold register_and_forward, register_gateways, bind.
  pose proof (register_gateways_outcome entry client (gateways setup) h) as Hg.
  destruct (for_each _ _ h) as [[[] | e] h1]; simpl in *; [| by left].
  unfold async_forward_entry_setups.
  destruct (forward_entry_setups env entry (PLATFORMS K)) as [[] | e]; simpl; auto.
Qed.

End Setup_run.

(** ** Classification of the devices *)

Section Classification.

Variable K : Const.

Lemma widget_then_ui_class_mapped device p :
  widget_then_ui_class K device = Some p ->
  exists k, OVERKIZ_DEVICE_TO_PLATFORM K !! k = Some p.
Proof.
  unfold widget_then_ui_class.
  destruct (OVERKIZ_DEVICE_TO_PLATFORM K !! widget device) eqn:Hw; eauto.
  intros [= <-]. eauto.
Qed.

Lemma truthy_Some p : p ≠ "" -> truthy (Some p) = true.
Proof. intros Hp. simpl. by apply negb_true_iff, String.eqb_neq. Qed.

(** With every mapped platform truthy, [or] falls through exactly when the
    widget lookup misses. *)
Lemma device_platform_spec device :
  platforms_truthy K ->
  device_platform K device = widget_then_ui_class K device.
Proof.
  intros Ht. unfold device_platform, widget_then_ui_class, py_or.
  destruct (OVERKIZ_DEVICE_TO_PLATFORM K !! widget device) as [p |] eqn:Hw; [| done].
  by rewrite (truthy_Some p (Ht _ _ Hw)).
Qed.

Lemma map_device_on_spec ps device :
  platforms_truthy K ->
  map_device_on K ps device
  = match widget_then_ui_class K device with
    | Some p => append_device p device ps
    | None => ps
    end.
Proof.
  intros Ht. unfold map_device_on. rewrite (device_platform_spec _ Ht).
  destruct (widget_then_ui_class K device) as [p |] eqn:Hp; [| done].
  destruct (widget_then_ui_class_mapped _ _ Hp) as [k Hk].
  by rewrite (truthy_Some p (Ht _ _ Hk)).
Qed.

Lemma bucket_append_device q device ps p :
  bucket (append_device q device ps) p
  = if decide (q = p) then bucket ps p ++ [device] else bucket ps p.
Proof.
  unfold bucket, append_device. case_decide as Hq.
  - subst q. by rewrite lookup_insert_eq.
  - by rewrite lookup_insert_ne.
Qed.

(** The device loop appends to each bucket, in their order, the devices
    that classify to it. *)
Lemma bucket_foldl devs : forall ps p,
  platforms_truthy K ->
  bucket (foldl (map_device_on K) ps devs) p
  = bucket ps p ++ filter (fun device => widget_then_ui_class K device = Some p) devs.
Proof.
  induction devs as [| device devs IH]; intros ps p Ht; simpl.
  - by rewrite app_nil_r.
  - rewrite IH by done. rewrite (map_device_on_spec _ _ Ht).
    rewrite filter_cons.
    destruct (widget_then_ui_class K device) as [q |] eqn:Hq.
    + rewrite bucket_append_device.
      destruct (decide (q = p)) as [-> | Hne].
      * rewrite decide_True by done. by rewrite <- app_assoc.
      * rewrite decide_False by congruence. done.
    + rewrite decide_False by done. done.
Qed.

End Classification.

(** ** The claims on [async_setup_entry] *)

Section Setup_claims.

Variable K : Const.
Variable env : Env.

(** C8: once the client is built, the inventory fetched and the first
    refresh done, the coordinator the stored bundle refers to says
    [is_stateless] exactly when every fetched device reports an assumed
    state, and its polling interval is [UPDATE_INTERVAL_ALL_ASSUMED_STATE]
    then and the [UPDATE_INTERVAL] it was constructed with otherwise;
    whatever gateway registration and forwarding do afterwards. *)
Theorem setup_polling_interval entry hass client setup scens d :
  client_factory K env entry = Ok client ->
  connect env client = Ok (setup, scens) ->
  first_refresh env
    (new_coordinator env "device events" client (devices setup) (root_place setup)
       (UPDATE_INTERVAL K) (entry_id entry)) = Ok d ->
  exists b c,
    lookup_bundle (DOMAIN K) (async_setup_entry K env entry hass).2 (entry_id entry) = Some b
    /\ heap (async_setup_entry K env entry hass).2 !! coordinator b = Some (OCoordinator c)
    /\ is_stateless c = forallb (reports_assumed_state env) (devices setup)
    /\ update_interval c
       = if is_stateless c then UPDATE_INTERVAL_ALL_ASSUMED_STATE K else UPDATE_INTERVAL K.
Proof.
  intros Hc Hf Hr. rewrite (setup_run K env _ hass _ _ _ _ Hc Hf Hr).
  destruct (register_and_forward K env entry client setup _) as [r h'] eqn:Hrun.
  apply register_and_forward_frame in Hrun as [Hd Hh].
  destruct (platform_mapped_bundle K env _ _ _ _ _ _ _ Hd Hh) as (b & Hb & _ & Hco & _).
  exists b, (primed_coordinator K env entry client setup d). simpl.
  split; [done |]. split; [done |].
  unfold primed_coordinator. cbn.
  destruct (forallb (reports_assumed_state env) (devices setup)) eqn:Hs;
    cbn; rewrite ?Hs; done.
Qed.


(** C9: once the client is built, the inventory fetched and the first
    refresh has produced [d], the dictionary the stored bundle refers to
    holds, under each platform and in their order, the devices of [d] whose
    widget maps to it or, the widget missing from the mapping, whose UI
    class maps to it.  So a device whose widget is mapped sits in that
    bucket and in no other, one whose widget is not mapped sits in the
    bucket of its UI class, and one with neither sits in no bucket; and the
    call returns [True] whenever gateway registration and forwarding go
    through, whatever the devices are.  Every platform of the mapping is
    taken to be a member of [Platform], a non-empty string. *)
Theorem setup_platform_buckets entry hass client setup scens d :
  platforms_truthy K ->
  client_factory K env entry = Ok client ->
  connect env client = Ok (setup, scens) ->
  first_refresh env
    (new_coordinator env "device events" client (devices setup) (root_place setup)
       (UPDATE_INTERVAL K) (entry_id entry)) = Ok d ->
  exists b ps,
    lookup_bundle (DOMAIN K) (async_setup_entry K env entry hass).2 (entry_id entry) = Some b
    /\ heap (async_setup_entry K env entry hass).2 !! platforms b = Some (OPlatforms ps)
    /\ (forall p,
          bucket ps p
          = filter (fun device => widget_then_ui_class K device = Some p) (map snd d))
    /\ (forall device p,
          device ∈ map snd d ->
          OVERKIZ_DEVICE_TO_PLATFORM K !! widget device = Some p ->
          device ∈ bucket ps p /\ forall q, q ≠ p -> device ∉ bucket ps q)
    /\ (forall device p,
          device ∈ map snd d ->
          OVERKIZ_DEVICE_TO_PLATFORM K !! widget device = None ->
          OVERKIZ_DEVICE_TO_PLATFORM K !! ui_class device = Some p ->
          device ∈ bucket ps p /\ forall q, q ≠ p -> device ∉ bucket ps q)
    /\ (forall device,
          OVERKIZ_DEVICE_TO_PLATFORM K !! widget device = None ->
          OVERKIZ_DEVICE_TO_PLATFORM K !! ui_class device = None ->
          forall p, device ∉ bucket ps p)
    /\ ((forall g, g ∈ gateways setup ->
           get_or_create_error env (gateway_device K entry client g) = None) ->
        forward_entry_setups env entry (PLATFORMS K) = Ok tt ->
        (async_setup_entry K env entry hass).1 = Ok true).
Proof.
  intros Ht Hc Hf Hr. rewrite (setup_run K env _ hass _ _ _ _ Hc Hf Hr).
  pose proof (register_and_forward_outcome K env entry client setup
                (platform_mapped K env entry client setup scens d hass)) as Hout.
  destruct (register_and_forward K env entry client setup _) as [r h'] eqn:Hrun.
  apply register_and_forward_frame in Hrun as [Hd Hh].
  destruct (platform_mapped_bundle K env _ _ _ _ _ _ _ Hd Hh) as (b & Hb & _ & _ & Hpl).
  exists b, (foldl (map_device_on K) ∅ (map snd d)). simpl.
  assert (forall p,
             bucket (foldl (map_device_on K) ∅ (map snd d)) p
             = filter (fun device => widget_then_ui_class K device = Some p) (map snd d))
    as Hbucket.
  { intros p. rewrite (bucket_foldl K _ _ _ Ht). unfold bucket.
    by rewrite lookup_empty. }
  assert (forall device p,
             device ∈ map snd d ->
             widget_then_ui_class K device = Some p ->
             device ∈ bucket (foldl (map_device_on K) ∅ (map snd d)) p
             /\ forall q, q ≠ p ->
                  device ∉ bucket (foldl (map_device_on K) ∅ (map snd d)) q)
    as Hplace.
  { intros device p Hin Hp. split.
    - rewrite Hbucket. by apply list_elem_of_filter.
    - intros q Hq. rewrite Hbucket. intros [Hq' _]%list_elem_of_filter. congruence. }
  split; [done |]. split; [done |]. split; [done |]. split; [| split; [| split]].
  - intros device p Hin Hw. apply Hplace; [done |].
    unfold widget_then_ui_class. by rewrite Hw.
  - intros device p Hin Hw Hu. apply Hplace; [done |].
    unfold widget_then_ui_class. by rewrite Hw.
  - intros device Hw Hu p. rewrite Hbucket. intros [Hp _]%list_elem_of_filter.
    unfold widget_then_ui_class in Hp. rewrite Hw, Hu in Hp. discriminate.
  - intros Hg Hfw. simpl in Hout. destruct r as [b' | e].
    + by destruct Hout as (-> & _).
    + destruct Hout as [(g & Hin & He) | He].
      * rewrite (Hg g Hin) in He. discriminate.
      * rewrite Hfw in He. discriminate.
Qed.

(** C1, as the code has it: a failed [async_setup_entry] either stopped at
    the client construction, the login, the inventory fetch or the first
    refresh, and then [hass.data] is what it was before the call; or it
    stopped at a gateway registration or at the platform forwarding, and
    then the bundle stored at line 158 is still found under the entry's
    identifier. *)
Theorem setup_failure_registry entry hass e hass' :
  async_setup_entry K env entry hass = (Raise e, hass') ->
  (hass_data hass' = hass_data hass
   /\ (client_factory K env entry = Raise e
       \/ exists client,
            client_factory K env entry = Ok client
            /\ (connect env client = Raise e
                \/ exists setup scens,
                     connect env client = Ok (setup, scens)
                     /\ first_refresh env
                          (new_coordinator env "device events" client (devices setup)
                             (root_place setup) (UPDATE_INTERVAL K) (entry_id entry))
                        = Raise e)))
  \/ (exists client setup scens d b,
        client_factory K env entry = Ok client
        /\ connect env client = Ok (setup, scens)
        /\ first_refresh env
             (new_coordinator env "device events" client (devices setup)
                (root_place setup) (UPDATE_INTERVAL K) (entry_id entry))
           = Ok d
        /\ lookup_bundle (DOMAIN K) hass' (entry_id entry) = Some b
        /\ scenarios b = scens
        /\ ((exists g, g ∈ gateways setup
                       /\ get_or_create_error env (gateway_device K entry client g) = Some e)
            \/ forward_entry_setups env entry (PLATFORMS K) = Raise e)).
Proof.
  intros Hrun.
  destruct (client_factory K env entry) as [client | e0] eqn:Hc.
  2:{ left. revert Hrun. unfold async_setup_entry, bind, lift. rewrite Hc.
      intros [= <- <-]. auto. }
  destruct (connect env client) as [[setup scens] | e0] eqn:Hf.
  2:{ left. revert Hrun. unfold async_setup_entry, bind, lift. rewrite Hc, Hf.
      intros [= <- <-]. eauto 6. }
  destruct (first_refresh env
              (new_coordinator env "device events" client (devices setup)
                 (root_place setup) (UPDATE_INTERVAL K) (entry_id entry)))
    as [d | e0] eqn:Hr.
  2:{ left. destruct (setup_refresh_failure K env _ hass _ _ _ _ Hc Hf Hr)
        as (h1 & Hrun1 & Hd).
      rewrite Hrun1 in Hrun. injection Hrun as <- <-. eauto 10. }
  right. rewrite (setup_run K env _ hass _ _ _ _ Hc Hf Hr) in Hrun.
  pose proof (register_and_forward_outcome K env entry client setup
                (platform_mapped K env entry client setup scens d hass)) as Hout.
  rewrite Hrun in Hout. simpl in Hout.
  apply register_and_forward_frame in Hrun as [Hd Hh].
  destruct (platform_mapped_bundle K env _ _ _ _ _ _ _ Hd Hh) as (b & Hb & Hs & _ & _).
  exists client, setup, scens, d, b. auto 10.
Qed.

End Setup_claims.

(** * The claims at the sample data *)

Example sample_migration :
  async_migrate_entry Sample.K (Sample.entry_v1, Sample.hass)
  = (Ok true, (Sample.entry_cloud, set_saved_entries [Sample.entry_cloud] Sample.hass)).
Proof. vm_compute. reflexivity. Qed.

Example sample_setup_returns :
  (async_setup_entry Sample.K Sample.env Sample.entry_cloud Sample.hass).1 = Ok true.
Proof. vm_compute. reflexivity. Qed.

Example sample_buckets :
  exists ps,
    heap Sample.hass_loaded !! 1 = Some (OPlatforms ps)
    /\ bucket ps "cover" = [Sample.awning]
    /\ bucket ps "switch" = [Sample.tank]
    /\ bucket ps "water_heater" = []
    /\ bucket ps "light" = [].
Proof. eexists. split; [vm_compute; reflexivity |]. vm_compute. done. Qed.

Example sample_gateway_record :
  device_registry Sample.hass_loaded
  = [{| device_config_entry_id := "0123";
        identifiers := [("overkiz_local", "1234-5678-9012")];
        model := Some "Tahoma Basic";
        device_manufacturer := "Somfy";
        device_name := "Tahoma";
        sw_version := "2023.1.4";
        device_configuration_url := Some "https://www.tahomalink.com" |}].
Proof. vm_compute. reflexivity. Qed.

(** A gateway type whose [IntEnum] value is [0] is falsy: the record is
    named after the gateway's identifier. *)
Example sample_falsy_gateway_type :
  device_name
    (gateway_device Sample.K Sample.entry_cloud
       {| username := VNone; password := VNone; token := None;
          session := async_create_clientsession true; server := Sample.somfy_europe |}
       {| gateway_id := "1234-5678-9012";
          gateway_type := Some {| enum_value := 0; beautify_name := "Virtual Kizbox" |};
          sub_type := None;
          connectivity := {| status := "OK"; protocol_version := "1" |} |})
  = "1234-5678-9012".
Proof. reflexivity. Qed.

(** With no registry under the domain, a successful platform unload is
    followed by the [KeyError] of [hass.data[DOMAIN]]. *)
Example sample_unload_without_registry :
  (async_unload_entry Sample.K Sample.env Sample.entry_cloud Sample.hass).1
  = Raise (KeyError (VStr "overkiz_local")).
Proof. vm_compute. reflexivity. Qed.

(** A version-1 entry without the hub field stops at line 65 and is left
    as it was. *)
Example sample_migration_without_hub :
  async_migrate_entry Sample.K
    ({| entry_id := "89ab"; version := 1; data := {[ "username" := VStr "u" ]} |},
     Sample.hass)
  = (Raise (KeyError (VStr "hub")),
     ({| entry_id := "89ab"; version := 1; data := {[ "username" := VStr "u" ]} |},
      Sample.hass)).
Proof. vm_compute. reflexivity. Qed.

Example sample_unload_keeps_other_entry :
  lookup_bundle "overkiz_local"
    (async_unload_entry Sample.K Sample.env Sample.entry_cloud Sample.hass_two).2 "0123"
  = None
  /\ lookup_bundle "overkiz_local"
       (async_unload_entry Sample.K Sample.env Sample.entry_cloud Sample.hass_two).2 "4567"
     = Some {| coordinator := 2; platforms := 3; scenarios := [Sample.scenario] |}.
Proof. vm_compute. done. Qed.

Lemma migrate_v1_to_v2_witness :
  exists entry',
    async_migrate_entry Sample.K (Sample.entry_v1, Sample.hass)
    = (Ok true,
       (entry', set_saved_entries (saved_entries Sample.hass ++ [entry']) Sample.hass))
    /\ entry_id entry' = "0123"
    /\ version entry' = 2%Z
    /\ data entry' !! "server" = Some (VStr "somfy_europe")
    /\ data entry' !! "hub" = None
    /\ data entry' !! "api_type" = Some (VStr "cloud")
    /\ forall k, k ≠ "server" -> k ≠ "hub" -> k ≠ "api_type" ->
         data entry' !! k = data Sample.entry_v1 !! k.
Proof.
  apply (migrate_v1_to_v2 Sample.K Sample.entry_v1 Sample.hass (VStr "somfy_europe"));
    vm_compute; congruence.
Defined.

Lemma migrate_noop_and_idempotent_witness :
  async_migrate_entry Sample.K (Sample.entry_cloud, Sample.hass)
  = (Ok true, (Sample.entry_cloud, Sample.hass)).
Proof.
  apply (proj1 (migrate_noop_and_idempotent Sample.K)). vm_compute. congruence.
Defined.

Lemma unload_entry_removes_iff_ok_witness :
  exists hass',
    async_unload_entry Sample.K Sample.env Sample.entry_cloud Sample.hass_loaded
    = (Ok true, hass')
    /\ (lookup_bundle "overkiz_local" hass' "0123" = None <-> true = true)
    /\ (true = false ->
        lookup_bundle "overkiz_local" hass' "0123"
        = Some {| coordinator := 0; platforms := 1; scenarios := [Sample.scenario] |}).
Proof.
  apply (unload_entry_removes_iff_ok Sample.K Sample.env Sample.entry_cloud
           Sample.hass_loaded true);
    vm_compute; reflexivity.
Defined.

Lemma unload_entry_frame_witness :
  lookup_bundle "overkiz_local"
    (async_unload_entry Sample.K Sample.env Sample.entry_cloud Sample.hass_two).2 "4567"
  = lookup_bundle "overkiz_local" Sample.hass_two "4567".
Proof.
  apply (unload_entry_frame Sample.K Sample.env Sample.entry_cloud Sample.hass_two
           "overkiz_local" "4567").
  right. vm_compute. congruence.
Defined.

Lemma local_client_ignores_credentials_witness :
  client_factory Sample.K Sample.env Sample.entry_local
  = client_factory Sample.K Sample.env Sample.entry_local_with_credentials
  /\ forall c, client_factory Sample.K Sample.env Sample.entry_local = Ok c ->
       verify_ssl (session c) = false
       /\ username c = VStr "" /\ password c = VStr "".
Proof.
  apply (local_client_ignores_credentials Sample.K Sample.env
           Sample.entry_local Sample.entry_local_with_credentials).
  - vm_compute. reflexivity.
  - vm_compute. reflexivity.
  - intros k Hu Hp.
    change (data Sample.entry_local_with_credentials)
      with (<["username" := VStr "user@example.org"]>
              (<["password" := VStr "secret"]> (data Sample.entry_local))).
    rewrite lookup_insert_ne by (intros Heq; apply Hu; symmetry; exact Heq).
    rewrite lookup_insert_ne by (intros Heq; apply Hp; symmetry; exact Heq).
    reflexivity.
Defined.

Lemma setup_auth_failed_witness :
  async_setup_entry Sample.K Sample.env_bad_credentials Sample.entry_cloud Sample.hass
  = (Raise (ConfigEntryAuthFailed "Invalid authentication" (Some BadCredentialsException)),
     Sample.hass)
  /\ heap (async_setup_entry Sample.K Sample.env_bad_credentials
             Sample.entry_cloud Sample.hass).2
     = heap Sample.hass.
Proof.
  apply (setup_auth_failed Sample.K Sample.env_bad_credentials Sample.entry_cloud
           Sample.hass Sample.cloud_client BadCredentialsException).
  - vm_compute. reflexivity.
  - left. reflexivity.
  - left. reflexivity.
Defined.

Lemma setup_not_ready_witness :
  (exists msg,
      async_setup_entry Sample.K Sample.env_timeout Sample.entry_cloud Sample.hass
      = (Raise (ConfigEntryNotReady msg (Some TimeoutError)), Sample.hass))
  /\ heap (async_setup_entry Sample.K Sample.env_timeout Sample.entry_cloud Sample.hass).2
     = heap Sample.hass.
Proof.
  apply (setup_not_ready Sample.K Sample.env_timeout Sample.entry_cloud
           Sample.hass Sample.cloud_client TimeoutError).
  - vm_compute. reflexivity.
  - left. reflexivity.
  - right. left.
Defined.

Lemma setup_polling_interval_witness :
  exists b c,
    lookup_bundle "overkiz_local"
      (async_setup_entry Sample.K Sample.env Sample.entry_cloud Sample.hass).2 "0123"
    = Some b
    /\ heap (async_setup_entry Sample.K Sample.env Sample.entry_cloud Sample.hass).2
         !! coordinator b = Some (OCoordinator c)
    /\ is_stateless c = false
    /\ update_interval c = if is_stateless c then 3600%Z else 30%Z.
Proof.
  apply (setup_polling_interval Sample.K Sample.env Sample.entry_cloud Sample.hass
           Sample.cloud_client Sample.setup [Sample.scenario]
           [(device_url Sample.awning, Sample.awning);
            (device_url Sample.tank, Sample.tank);
            (device_url Sample.pod, Sample.pod)]);
    vm_compute; reflexivity.
Defined.

Lemma setup_platform_buckets_witness :
  exists b ps,
    lookup_bundle "overkiz_local" Sample.hass_loaded "0123" = Some b
    /\ heap Sample.hass_loaded !! platforms b = Some (OPlatforms ps)
    /\ bucket ps "cover" = [Sample.awning]
    /\ bucket ps "switch" = [Sample.tank]
    /\ (forall p, Sample.tank ∉ bucket ps p \/ p = "switch")
    /\ (forall p, Sample.pod ∉ bucket ps p).
Proof.
  destruct (setup_platform_buckets Sample.K Sample.env Sample.entry_cloud Sample.hass
              Sample.cloud_client Sample.setup [Sample.scenario]
              [(device_url Sample.awning, Sample.awning);
               (device_url Sample.tank, Sample.tank);
               (device_url Sample.pod, Sample.pod)])
    as (b & ps & Hb & Hps & Hfilter & Hwidget & _ & Hnone & _).
  - unfold platforms_truthy. apply (bool_decide_unpack _). vm_compute. exact I.
  - vm_compute. reflexivity.
  - vm_compute. reflexivity.
  - vm_compute. reflexivity.
  - exists b, ps. split; [exact Hb |]. split; [exact Hps |].
    split; [rewrite Hfilter; vm_compute; reflexivity |].
    split; [rewrite Hfilter; vm_compute; reflexivity |].
    split.
    + intros p. destruct (decide (p = "switch")) as [-> | Hne]; [by right | left].
      apply (Hwidget Sample.tank "switch"); [| vm_compute; reflexivity | exact Hne].
      right. left.
    + apply Hnone; vm_compute; reflexivity.
Defined.

Lemma setup_failure_registry_witness :
  exists b,
    lookup_bundle "overkiz_local"
      (async_setup_entry Sample.K Sample.env_forward_fails Sample.entry_cloud Sample.hass).2
      "0123" = Some b
    /\ scenarios b = [Sample.scenario].
Proof.
  destruct (setup_failure_registry Sample.K Sample.env_forward_fails Sample.entry_cloud
              Sample.hass (OtherException "HomeAssistantError")
              (async_setup_entry Sample.K Sample.env_forward_fails
                 Sample.entry_cloud Sample.hass).2)
    as [[_ [Hc | (client & _ & [Hf | (setup & scens & _ & Hr)])]]
       | (client & setup & scens & d & b & _ & Hf & _ & Hb & Hs & _)].
  - vm_compute. reflexivity.
  - exfalso. vm_compute in Hc. discriminate.
  - exfalso. vm_compute in Hf. discriminate.
  - exfalso. vm_compute in Hr. discriminate.
  - exists b. split; [exact Hb |]. rewrite Hs.
    vm_compute in Hf. by injection Hf as _ <-.
Defined.

(** C1 as stated fails: with the forwarding refused, the call on a state
    that holds no bundle for the entry raises and leaves one behind. *)
Lemma setup_forward_failure_keeps_bundle :
  ~ (forall K env entry hass e hass',
        lookup_bundle (DOMAIN K) hass (entry_id entry) = None ->
        async_setup_entry K env entry hass = (Raise e, hass') ->
        lookup_bundle (DOMAIN K) hass' (entry_id entry) = None).
Proof.
  intros Hclaim.
  specialize (Hclaim Sample.K Sample.env_forward_fails Sample.entry_cloud Sample.hass
                (OtherException "HomeAssistantError")
                (async_setup_entry Sample.K Sample.env_forward_fails
                   Sample.entry_cloud Sample.hass).2).
  assert (lookup_bundle (DOMAIN Sample.K) Sample.hass (entry_id Sample.entry_cloud) = None)
    as Hbefore by (vm_compute; reflexivity).
  assert (async_setup_entry Sample.K Sample.env_forward_fails Sample.entry_cloud Sample.hass
          = (Raise (OtherException "HomeAssistantError"),
             (async_setup_entry Sample.K Sample.env_forward_fails
                Sample.entry_cloud Sample.hass).2))
    as Hrun by (vm_compute; reflexivity).
  specialize (Hclaim Hbefore Hrun). vm_compute in Hclaim. discriminate.
Qed.

(** * Further properties of the module *)

(** ** Client construction (lines 80-108) *)

Section Client_construction.

Variable K : Const.
Variable env : Env.

Lemma client_factory_raises_KeyError entry e :
  client_factory K env entry = Raise e -> exists k, e = KeyError k.
Proof.
  unfold client_factory, supported_server, getitem.
  destruct (data entry !! CONF_API_TYPE K) as [t |]; simpl; [| intros [= <-]; eauto].
  case_decide.
  - destruct (data entry !! CONF_HOST); simpl; [| intros [= <-]; eauto].
    destruct (data entry !! CONF_TOKEN); simpl; [discriminate | intros [= <-]; eauto].
  - destruct (data entry !! CONF_USERNAME); simpl; [| intros [= <-]; eauto].
    destruct (data entry !! CONF_PASSWORD); simpl; [| intros [= <-]; eauto].
    destruct (data entry !! CONF_SERVER K) as [key |]; simpl; [| intros [= <-]; eauto].
    destruct key as [s | | |]; simpl; try (intros [= <-]; eauto).
    destruct (SUPPORTED_SERVERS env !! s); simpl; [discriminate | intros [= <-]; eauto].
Qed.

(** X1: an entry whose API type is anything but [local] gets a client
    exactly when it has a username, a password and a server key that is a
    string found in [SUPPORTED_SERVERS]; the client then carries those
    credentials, no token, a session with the default certificate
    verification, and the server the key selects. *)
Theorem cloud_client_construction entry t c :
  data entry !! CONF_API_TYPE K = Some t ->
  t ≠ APIType_value LOCAL ->
  client_factory K env entry = Ok c
  <-> exists user pass s srv,
        data entry !! CONF_USERNAME = Some user
        /\ data entry !! CONF_PASSWORD = Some pass
        /\ data entry !! CONF_SERVER K = Some (VStr s)
        /\ SUPPORTED_SERVERS env !! s = Some srv
        /\ c = {| username := user; password := pass; token := None;
                  session := {| verify_ssl := true |}; server := srv |}.
Proof.
  intros Ht Hne. unfold client_factory, supported_server, getitem. rewrite Ht. simpl.
  rewrite decide_False by done. split.
  - destruct (data entry !! CONF_USERNAME) as [user |]; simpl; [| discriminate].
    destruct (data entry !! CONF_PASSWORD) as [pass |]; simpl; [| discriminate].
    destruct (data entry !! CONF_SERVER K) as [[s | | |] |]; simpl; try discriminate.
    destruct (SUPPORTED_SERVERS env !! s) as [srv |] eqn:Hs; simpl; [| discriminate].
    intros [= <-]. eauto 10.
  - intros (user & pass & s & srv & -> & -> & -> & Hs & ->). simpl. by rewrite Hs.
Qed.

(** X2: an entry whose API type is [local] gets a client exactly when it
    has a host and a token, whatever else it holds; the client then has
    empty credentials, that token, a session that verifies no certificate
    and the server generated from the host. *)
Theorem local_client_construction entry c :
  data entry !! CONF_API_TYPE K = Some (APIType_value LOCAL) ->
  client_factory K env entry = Ok c
  <-> exists host tok,
        data entry !! CONF_HOST = Some host
        /\ data entry !! CONF_TOKEN = Some tok
        /\ c = {| username := VStr ""; password := VStr ""; token := Some tok;
                  session := {| verify_ssl := false |};
                  server := generate_local_server env host |}.
Proof.
  intros Hl. rewrite (client_factory_local K env _ Hl). unfold getitem. split.
  - destruct (data entry !! CONF_HOST) as [host |]; simpl; [| discriminate].
    destruct (data entry !! CONF_TOKEN) as [tok |]; simpl; [| discriminate].
    intros [= <-]. eauto.
  - intros (host & tok & -> & -> & ->). reflexivity.
Qed.

(** X3: when the client cannot be built the cause is a [KeyError], and
    [async_setup_entry] raises it with the state untouched: nothing was
    fetched, allocated or stored. *)
Theorem setup_client_key_error entry hass e :
  client_factory K env entry = Raise e ->
  (exists k, e = KeyError k)
  /\ async_setup_entry K env entry hass = (Raise e, hass).
Proof.
  intros Hc. split; [by eapply client_factory_raises_KeyError |].
  unfold async_setup_entry, bind, lift. by rewrite Hc.
Qed.

(** X4: the inventory is obtained exactly when the login and both fetches
    succeed, and it is then the pair of their results. *)
Theorem connect_ok_iff client setup scens :
  connect env client = Ok (setup, scens)
  <-> login env client = Ok tt
      /\ get_setup env client = Ok setup
      /\ get_scenarios env client = Ok scens.
Proof.
  unfold connect, login_and_fetch, gather. split.
  - destruct (login env client) as [[] |]; simpl; [| discriminate].
    destruct (get_setup env client), (get_scenarios env client); simpl;
      try discriminate.
    by intros [= -> ->].
  - by intros (-> & -> & ->).
Qed.


End Client_construction.

(** ** The runs of [async_setup_entry] (lines 77-194) *)

Section Setup_runs.

Variable K : Const.
Variable env : Env.

(** The four ways a call can go: no client, no inventory, no first
    refresh, or all three and then registration and forwarding. *)
Lemma setup_cases entry hass :
  (exists e,
      client_factory K env entry = Raise e
      /\ async_setup_entry K env entry hass = (Raise e, hass))
  \/ (exists client e,
        client_factory K env entry = Ok client
        /\ connect env client = Raise e
        /\ async_setup_entry K env entry hass = (Raise e, hass))
  \/ (exists client setup scens e,
        client_factory K env entry = Ok client
        /\ connect env client = Ok (setup, scens)
        /\ async_setup_entry K env entry hass
           = (Raise e,
              set_heap
                (heap hass
                 ++ [OCoordinator
                       (new_coordinator env "device events" client (devices setup)
                          (root_place setup) (UPDATE_INTERVAL K) (entry_id entry))])
                hass)
        /\ first_refresh env
             (new_coordinator env "device events" client (devices setup)
                (root_place setup) (UPDATE_INTERVAL K) (entry_id entry)) = Raise e)
  \/ (exists client setup scens d,
        client_factory K env entry = Ok client
        /\ connect env client = Ok (setup, scens)
        /\ first_refresh env
             (new_coordinator env "device events" client (devices setup)
                (root_place setup) (UPDATE_INTERVAL K) (entry_id entry)) = Ok d
        /\ async_setup_entry K env entry hass
           = register_and_forward K env entry client setup
               (platform_mapped K env entry client setup scens d hass)).
Proof.
  destruct (client_factory K env entry) as [client | e] eqn:Hc.
  2:{ left. exists e. split; [done |].
      unfold async_setup_entry, bind, lift. by rewrite Hc. }
  destruct (connect env client) as [[setup scens] | e] eqn:Hf.
  2:{ right. left. exists client, e. split; [done |]. split; [done |].
      unfold async_setup_entry, bind, lift. by rewrite Hc, Hf. }
  destruct (first_refresh env
              (new_coordinator env "device events" client (devices setup)
                 (root_place setup) (UPDATE_INTERVAL K) (entry_id entry)))
    as [d | e] eqn:Hr.
  - right. right. right. exists client, setup, scens, d.
    split; [done |]. split; [done |]. split; [done |].
    by apply setup_run.
  - right. right. left. exists client, setup, scens, e.
    split; [done |]. split; [done |]. split; [| done].
    unfold async_setup_entry.
    unfold bind at 1. unfold lift at 1. rewrite Hc.
    unfold bind at 1. unfold lift at 1. rewrite Hf. simpl.
    unfold bind at 1. rewrite prime_coordinator_run. simpl. by rewrite Hr.
Qed.

Lemma register_gateways_store entry client gws : forall h r h',
  for_each gws
    (fun gateway => async_get_or_create env (gateway_device K entry client gateway)) h
  = (r, h') ->
  saved_entries h' = saved_entries h /\ forwarded h' = forwarded h.
Proof.
  induction gws as [| g gws IH]; intros h r h'; simpl.
  - by intros [= <- <-].
  - unfold bind at 1. unfold async_get_or_create at 1.
    destruct (get_or_create_error env _); simpl.
    + by intros [= <- <-].
    + intros Hrun. by apply IH in Hrun.
Qed.

(** Registration and forwarding write no config entry, and record the
    forwarded platforms exactly when they return. *)
Lemma register_and_forward_store entry client setup h r h' :
  register_and_forward K env entry client setup h = (r, h') ->
  saved_entries h' = saved_entries h
  /\ forwarded h'
     = match r with
       | Ok _ => <[entry_id entry := PLATFORMS K]> (forwarded h)
       | Raise _ => forwarded h
       end.
Proof.
  unfold register_and_forward, register_gateways, bind.
  destruct (for_each _ _ h) as [[[] | e] h1] eqn:Hg;
    apply register_gateways_store in Hg as [Hs Hf].
  - unfold async_forward_entry_setups.
    destruct (forward_entry_setups env entry (PLATFORMS K)); simpl;
      intros [= <- <-]; simpl; by rewrite ?Hs, ?Hf.
  - by intros [= <- <-].
Qed.

(** X6: a failure of the coordinator's first refresh is outside the [try]:
    whatever it raises, a timeout included, leaves [async_setup_entry] as it
    is.  The coordinator was created, and nothing refers to it: [hass.data],
    the device registry and the forwarded platforms are what they were. *)
Theorem setup_refresh_error_propagates entry hass client setup scens e :
  client_factory K env entry = Ok client ->
  connect env client = Ok (setup, scens) ->
  first_refresh env
    (new_coordinator env "device events" client (devices setup) (root_place setup)
       (UPDATE_INTERVAL K) (entry_id entry)) = Raise e ->
  exists hass',
    async_setup_entry K env entry hass = (Raise e, hass')
    /\ heap hass'
       = heap hass
         ++ [OCoordinator
               (new_coordinator env "device events" client (devices setup)
                  (root_place setup) (UPDATE_INTERVAL K) (entry_id entry))]
    /\ hass_data hass' = hass_data hass
    /\ device_registry hass' = device_registry hass
    /\ forwarded hass' = forwarded hass.
Proof.
  intros Hc Hf Hr.
  destruct (setup_cases entry hass)
    as [(e0 & Hc' & _) | [(c0 & e0 & Hc' & Hf' & _)
       | [(c0 & s0 & sc0 & e0 & Hc' & Hf' & Hrun & Hr')
         | (c0 & s0 & sc0 & d0 & Hc' & Hf' & Hr' & _)]]];
    rewrite Hc in Hc'; try discriminate; injection Hc' as <-;
    rewrite Hf in Hf'; try discriminate; injection Hf' as <- <-;
    rewrite Hr in Hr'; try discriminate; injection Hr' as <-.
  eexists. split; [exact Hrun |]. done.
Qed.

(** X7: with the client built, the inventory fetched, the coordinator
    refreshed, every gateway accepted and the forwarding done,
    [async_setup_entry] returns [True]; the bundle found under the entry's
    identifier holds the fetched scenarios and refers to the refreshed
    coordinator; all of [PLATFORMS] is recorded as forwarded for the entry,
    whichever buckets are filled; and no config entry was written. *)
Theorem setup_success entry hass client setup scens d :
  client_factory K env entry = Ok client ->
  connect env client = Ok (setup, scens) ->
  first_refresh env
    (new_coordinator env "device events" client (devices setup) (root_place setup)
       (UPDATE_INTERVAL K) (entry_id entry)) = Ok d ->
  (forall g, g ∈ gateways setup ->
     get_or_create_error env (gateway_device K entry client g) = None) ->
  forward_entry_setups env entry (PLATFORMS K) = Ok tt ->
  exists hass' b c,
    async_setup_entry K env entry hass = (Ok true, hass')
    /\ lookup_bundle (DOMAIN K) hass' (entry_id entry) = Some b
    /\ scenarios b = scens
    /\ heap hass' !! coordinator b = Some (OCoordinator c)
    /\ coordinator_data c = Some d
    /\ config_entry_id c = entry_id entry
    /\ forwarded hass' = <[entry_id entry := PLATFORMS K]> (forwarded hass)
    /\ saved_entries hass' = saved_entries hass.
Proof.
  intros Hc Hf Hr Hg Hfw. rewrite (setup_run K env _ hass _ _ _ _ Hc Hf Hr).
  pose proof (register_and_forward_outcome K env entry client setup
                (platform_mapped K env entry client setup scens d hass)) as Hout.
  destruct (register_and_forward K env entry client setup _) as [r h'] eqn:Hrun.
  pose proof (register_and_forward_store _ _ _ _ _ _ Hrun) as [Hs Hfd].
  apply register_and_forward_frame in Hrun as [Hd Hh].
  destruct (platform_mapped_bundle K env _ _ _ _ _ _ _ Hd Hh) as (b & Hb & Hsc & Hco & _).
  simpl in Hout. destruct r as [ok | e].
  - destruct Hout as (-> & _).
    exists h', b, (primed_coordinator K env entry client setup d).
    split; [done |]. split; [done |]. split; [done |]. split; [done |].
    split; [| split; [| split; [done | done]]];
      unfold primed_coordinator; by destruct (is_stateless _).
  - exfalso. destruct Hout as [(g & Hin & He) | He].
    + rewrite (Hg g Hin) in He. discriminate.
    + rewrite Hfw in He. discriminate.
Qed.

(** X8: in every run, [async_setup_entry] writes no config entry, and the
    platforms are recorded as forwarded for the entry exactly when the call
    returns; a call that raises has forwarded nothing. *)
Theorem setup_forwards_iff_returns entry hass :
  saved_entries (async_setup_entry K env entry hass).2 = saved_entries hass
  /\ forwarded (async_setup_entry K env entry hass).2
     = match (async_setup_entry K env entry hass).1 with
       | Ok _ => <[entry_id entry := PLATFORMS K]> (forwarded hass)
       | Raise _ => forwarded hass
       end.
Proof.
  destruct (setup_cases entry hass)
    as [(e & _ & ->) | [(c & e & _ & _ & ->)
       | [(c & s & sc & e & _ & _ & -> & _)
         | (c & s & sc & d & _ & _ & _ & ->)]]]; try done.
  destruct (register_and_forward K env entry c s _) as [r h'] eqn:Hrun.
  apply register_and_forward_store in Hrun as [Hs Hf]. simpl.
  rewrite Hs, Hf. done.
Qed.

(** X9: in every run, [async_setup_entry] leaves the bundle found under
    any other domain or any other entry identifier as it was. *)
Theorem setup_registry_frame entry hass domain other :
  domain ≠ DOMAIN K \/ other ≠ entry_id entry ->
  lookup_bundle domain (async_setup_entry K env entry hass).2 other
  = lookup_bundle domain hass other.
Proof.
  intros Hother.
  destruct (setup_cases entry hass)
    as [(e & _ & ->) | [(c & e & _ & _ & ->)
       | [(c & s & sc & e & _ & _ & -> & _)
         | (c & s & sc & d & _ & _ & _ & ->)]]]; try done.
  destruct (register_and_forward K env entry c s _) as [r h'] eqn:Hrun.
  apply register_and_forward_frame in Hrun as [Hd _].
  unfold lookup_bundle. simpl. rewrite Hd. simpl.
  destruct (decide (domain = DOMAIN K)) as [-> | Hne].
  - rewrite lookup_insert_eq. destruct Hother as [? | Hid]; [done |].
    rewrite lookup_insert_ne by done.
    destruct (hass_data hass !! DOMAIN K); simpl; [done | apply lookup_empty].
  - by rewrite lookup_insert_ne.
Qed.

(** X10: in every run, [async_setup_entry] only adds to the heap, at most
    two objects: every object that existed before the call, the
    coordinators and dictionaries of other entries among them, is found
    unchanged at its reference after it. *)
Theorem setup_heap_frame entry hass :
  exists new,
    heap (async_setup_entry K env entry hass).2 = heap hass ++ new
    /\ (length new <= 2)%nat
    /\ forall l o, heap hass !! l = Some o ->
         heap (async_setup_entry K env entry hass).2 !! l = Some o.
Proof.
  assert (forall new,
             heap (async_setup_entry K env entry hass).2 = heap hass ++ new ->
             forall l o, heap hass !! l = Some o ->
               heap (async_setup_entry K env entry hass).2 !! l = Some o) as Hlook.
  { intros new -> l o Hl. by apply lookup_app_l_Some. }
  destruct (setup_cases entry hass)
    as [(e & _ & Hrun) | [(c & e & _ & _ & Hrun)
       | [(c & s & sc & e & _ & _ & Hrun & _)
         | (c & s & sc & d & _ & _ & _ & Hrun)]]].
  - exists []. split; [rewrite Hrun; simpl; by rewrite app_nil_r |].
    split; [simpl; lia |]. apply (Hlook []). rewrite Hrun. simpl. by rewrite app_nil_r.
  - exists []. split; [rewrite Hrun; simpl; by rewrite app_nil_r |].
    split; [simpl; lia |]. apply (Hlook []). rewrite Hrun. simpl. by rewrite app_nil_r.
  - eexists [_]. split; [rewrite Hrun; reflexivity |].
    split; [simpl; lia |]. eapply Hlook. rewrite Hrun. reflexivity.
  - destruct (register_and_forward K env entry c s _) as [r h'] eqn:Hrf.
    apply register_and_forward_frame in Hrf as [_ Hh].
    eexists [_; _]. rewrite Hrun. simpl. rewrite Hh. simpl.
    split; [reflexivity |]. split; [lia |].
    intros l o Hl. by apply lookup_app_l_Some.
Qed.

End Setup_runs.

(** ** Teardown after setup (lines 158 and 197-202) *)

Section Unload_edges.

Variable K : Const.
Variable env : Env.

(** X11: a successful platform unload for an entry that has no bundle
    raises the [KeyError] of the missing key, the domain or the entry
    identifier, and leaves [hass.data] as it was. *)
Theorem unload_without_bundle_raises entry hass :
  unload_platforms env entry (PLATFORMS K) = Ok true ->
  lookup_bundle (DOMAIN K) hass (entry_id entry) = None ->
  exists hass',
    async_unload_entry K env entry hass
    = (Raise (KeyError (VStr (if hass_data hass !! DOMAIN K is Some _
                              then entry_id entry else DOMAIN K))), hass')
    /\ hass_data hass' = hass_data hass.
Proof.
  intros Hu Hb. rewrite (unload_ok_run K env _ _ Hu). unfold lookup_bundle in Hb.
  destruct (hass_data hass !! DOMAIN K) as [registry |]; [rewrite Hb |];
    eexists; split; reflexivity.
Qed.

(** X12: unloading is not idempotent: after an unload that removed the
    bundle, a second unload whose platform unload succeeds again raises the
    [KeyError] of the entry identifier. *)
Theorem unload_twice_raises entry hass b :
  unload_platforms env entry (PLATFORMS K) = Ok true ->
  lookup_bundle (DOMAIN K) hass (entry_id entry) = Some b ->
  (async_unload_entry K env entry hass).1 = Ok true
  /\ (async_unload_entry K env entry (async_unload_entry K env entry hass).2).1
     = Raise (KeyError (VStr (entry_id entry))).
Proof.
  intros Hu Hb. rewrite (unload_ok_run K env _ hass Hu). unfold lookup_bundle in Hb.
  destruct (hass_data hass !! DOMAIN K) as [registry |]; [| discriminate].
  rewrite Hb. simpl. split; [reflexivity |].
  rewrite (unload_ok_run K env _ _ Hu). simpl.
  by rewrite lookup_insert_eq, lookup_delete_eq.
Qed.

(** X13: a setup that goes through, for an entry that had no bundle,
    followed by an unload whose platform unload succeeds: both return
    [True], every bundle lookup is back to what it was before the setup, and
    so is the record of forwarded platforms when the entry had none. *)
Theorem setup_then_unload entry hass client setup scens d :
  client_factory K env entry = Ok client ->
  connect env client = Ok (setup, scens) ->
  first_refresh env
    (new_coordinator env "device events" client (devices setup) (root_place setup)
       (UPDATE_INTERVAL K) (entry_id entry)) = Ok d ->
  (forall g, g ∈ gateways setup ->
     get_or_create_error env (gateway_device K entry client g) = None) ->
  forward_entry_setups env entry (PLATFORMS K) = Ok tt ->
  unload_platforms env entry (PLATFORMS K) = Ok true ->
  lookup_bundle (DOMAIN K) hass (entry_id entry) = None ->
  exists h1 h2,
    async_setup_entry K env entry hass = (Ok true, h1)
    /\ async_unload_entry K env entry h1 = (Ok true, h2)
    /\ (forall domain id, lookup_bundle domain h2 id = lookup_bundle domain hass id)
    /\ forwarded h2 = delete (entry_id entry) (forwarded hass).
Proof.
  intros Hc Hf Hr Hg Hfw Hu Hnone.
  rewrite (setup_run K env _ hass _ _ _ _ Hc Hf Hr).
  pose proof (register_and_forward_outcome K env entry client setup
                (platform_mapped K env entry client setup scens d hass)) as Hout.
  destruct (register_and_forward K env entry client setup _) as [r h1] eqn:Hrun.
  pose proof (register_and_forward_store K env _ _ _ _ _ _ Hrun) as [_ Hfd].
  apply register_and_forward_frame in Hrun as [Hd _].
  simpl in Hout. destruct r as [ok | e].
  2:{ exfalso. destruct Hout as [(g & Hin & He) | He].
      - rewrite (Hg g Hin) in He. discriminate.
      - rewrite Hfw in He. discriminate. }
  destruct Hout as (-> & _). exists h1. rewrite (unload_ok_run K env _ h1 Hu).
  rewrite Hd. simpl. rewrite !lookup_insert_eq.
  eexists. split; [reflexivity |]. split; [reflexivity |]. split.
  - intros domain id. unfold lookup_bundle. simpl.
    rewrite insert_insert_eq, delete_insert_eq.
    unfold lookup_bundle in Hnone.
    destruct (decide (domain = DOMAIN K)) as [-> | Hne].
    + rewrite lookup_insert_eq.
      destruct (hass_data hass !! DOMAIN K) as [registry |] eqn:Hreg; simpl.
      * destruct (decide (id = entry_id entry)) as [-> | Hid].
        -- by rewrite lookup_delete_eq.
        -- by rewrite lookup_delete_ne.
      * rewrite delete_empty. apply lookup_empty.
    + by rewrite lookup_insert_ne.
  - simpl. rewrite Hfd. simpl. by rewrite delete_insert_eq.
Qed.

End Unload_edges.

(** ** Migration: edges and composition (lines 57-108) *)

Section Migration_edges.

Variable K : Const.
Variable env : Env.

(** X14: a version-1 entry without the hub field stops the migration at
    line 65 with the [KeyError] of that field; the entry keeps version 1 and
    its data, and nothing is written. *)
Theorem migrate_v1_without_hub_raises entry hass :
  version entry = 1%Z ->
  data entry !! CONF_HUB K = None ->
  async_migrate_entry K (entry, hass)
  = (Raise (KeyError (VStr (CONF_HUB K))), (entry, hass)).
Proof. apply migrate_v1_missing_hub. Qed.

(** X15: in every run the migration keeps the entry's identifier, leaves
    its version as it was or at 2, touches neither [hass.data] nor the heap
    nor the device registry nor the forwarded platforms, and hands the store
    nothing or the entry as it leaves it. *)
Theorem migrate_frame entry hass :
  let r := async_migrate_entry K (entry, hass) in
  entry_id r.2.1 = entry_id entry
  /\ (version r.2.1 = version entry \/ version r.2.1 = 2%Z)
  /\ hass_data r.2.2 = hass_data hass
  /\ heap r.2.2 = heap hass
  /\ device_registry r.2.2 = device_registry hass
  /\ forwarded r.2.2 = forwarded hass
  /\ (saved_entries r.2.2 = saved_entries hass
      \/ saved_entries r.2.2 = saved_entries hass ++ [r.2.1]).
Proof.
  unfold async_migrate_entry, bind, get, lift, modify. simpl.
  destruct (decide (version entry = 1%Z)); [| simpl; auto 10].
  unfold getitem. destruct (data entry !! CONF_HUB K) as [hub |]; simpl; [| auto 10].
  unfold dict_pop.
  destruct (<[CONF_SERVER K:=hub]> (data entry) !! CONF_HUB K); simpl; [| auto 10].
  unfold async_update_entry. simpl. case_decide; simpl; auto 10.
Qed.

(** The run of the version-1 branch when the three names are distinct. *)
Lemma migrate_v1_data entry hass hub :
  CONF_SERVER K ≠ CONF_HUB K ->
  CONF_API_TYPE K ≠ CONF_HUB K ->
  version entry = 1%Z ->
  data entry !! CONF_HUB K = Some hub ->
  exists entry' hass',
    async_migrate_entry K (entry, hass) = (Ok true, (entry', hass'))
    /\ data entry'
       = <[CONF_API_TYPE K := APIType_value CLOUD]>
           (delete (CONF_HUB K) (<[CONF_SERVER K := hub]> (data entry))).
Proof.
  intros Hsh Hah Hv Hh.
  unfold async_migrate_entry, bind, get, lift, modify. simpl.
  destruct (decide (version entry = 1%Z)); [| contradiction].
  rewrite (getitem_Some _ _ _ Hh). unfold dict_pop.
  rewrite lookup_insert_ne by done. rewrite Hh.
  unfold async_update_entry. simpl. case_decide as Hsame.
  - exfalso. apply (f_equal (fun m => m !! CONF_HUB K)) in Hsame.
    rewrite Hh, lookup_insert_ne, lookup_delete_eq in Hsame by done. discriminate.
  - eexists _, _. split; reflexivity.
Qed.

(** X16: migration makes a version-1 entry fit for setup.  With the five
    field names distinct, an entry at version 1 with a username, a password
    and a hub that names a supported server builds, once migrated, the cloud
    client of that server with those credentials; before the migration, with
    no API-type field, the client construction raises the [KeyError] of that
    field. *)
Theorem migrate_then_client entry hass user pass s srv :
  NoDup [CONF_HUB K; CONF_SERVER K; CONF_API_TYPE K; CONF_USERNAME; CONF_PASSWORD] ->
  version entry = 1%Z ->
  data entry !! CONF_USERNAME = Some user ->
  data entry !! CONF_PASSWORD = Some pass ->
  data entry !! CONF_HUB K = Some (VStr s) ->
  data entry !! CONF_API_TYPE K = None ->
  SUPPORTED_SERVERS env !! s = Some srv ->
  client_factory K env entry = Raise (KeyError (VStr (CONF_API_TYPE K)))
  /\ exists entry' hass',
       async_migrate_entry K (entry, hass) = (Ok true, (entry', hass'))
       /\ client_factory K env entry'
          = Ok {| username := user; password := pass; token := None;
                  session := {| verify_ssl := true |}; server := srv |}.
Proof.
  intros Hnd Hv Hu Hp Hh Ha Hs.
  assert (CONF_HUB K ≠ CONF_SERVER K /\ CONF_HUB K ≠ CONF_API_TYPE K
          /\ CONF_HUB K ≠ CONF_USERNAME /\ CONF_HUB K ≠ CONF_PASSWORD
          /\ CONF_SERVER K ≠ CONF_API_TYPE K /\ CONF_SERVER K ≠ CONF_USERNAME
          /\ CONF_SERVER K ≠ CONF_PASSWORD /\ CONF_API_TYPE K ≠ CONF_USERNAME
          /\ CONF_API_TYPE K ≠ CONF_PASSWORD)
    as (Hhs & Hha & Hhu & Hhp & Hsa & Hsu & Hsp & Hau & Hap).
  { rewrite !NoDup_cons, !not_elem_of_cons in Hnd. tauto. }
  split.
  { unfold client_factory, getitem. by rewrite Ha. }
  destruct (migrate_v1_data entry hass (VStr s)) as (entry' & hass' & Hrun & Hd);
    [done | done | done | done |].
  exists entry', hass'. split; [done |].
  unfold client_factory, supported_server, getitem. rewrite Hd.
  rewrite lookup_insert_eq. simpl.
  rewrite !(lookup_insert_ne _ (CONF_API_TYPE K)) by done.
  rewrite !(lookup_delete_ne _ (CONF_HUB K)) by done.
  rewrite lookup_insert_eq, !(lookup_insert_ne _ (CONF_SERVER K)) by done.
  rewrite Hu, Hp. simpl. by rewrite Hs.
Qed.

End Migration_edges.

(** ** The platform dictionary, for any mapping (lines 156-175) *)

Section Buckets.

Variable K : Const.
Variable env : Env.

Lemma map_device_on_general ps device :
  map_device_on K ps device
  = match device_platform K device with
    | Some p => if decide (p ≠ "") then append_device p device ps else ps
    | None => ps
    end.
Proof.
  unfold map_device_on. destruct (device_platform K device) as [p |]; [| done].
  unfold truthy.
  destruct (decide (p ≠ "")) as [Hne | He], (String.eqb_spec p "") as [Hp | Hp];
    simpl; done.
Qed.

Lemma device_platform_mapped device p :
  device_platform K device = Some p ->
  exists k, OVERKIZ_DEVICE_TO_PLATFORM K !! k = Some p.
Proof.
  unfold device_platform, py_or.
  destruct (truthy (OVERKIZ_DEVICE_TO_PLATFORM K !! widget device)); eauto.
Qed.

Lemma bucket_foldl_general devs : forall ps p,
  bucket (foldl (map_device_on K) ps devs) p
  = bucket ps p
    ++ filter (fun device => device_platform K device = Some p /\ p ≠ "") devs.
Proof.
  induction devs as [| device devs IH]; intros ps p; simpl.
  - by rewrite app_nil_r.
  - rewrite IH, map_device_on_general, filter_cons.
    destruct (device_platform K device) as [q |] eqn:Hq.
    + destruct (decide (q ≠ "")) as [Hne | He].
      * rewrite bucket_append_device.
        destruct (decide (q = p)) as [-> | Hqp].
        -- rewrite decide_True by done. by rewrite <- app_assoc.
        -- rewrite decide_False by (intros [[= ?] _]; done). done.
      * rewrite decide_False; [done |]. intros [[= ->] Hp]. done.
    + rewrite decide_False by (intros [? _]; done). done.
Qed.

Lemma keys_foldl devs : forall ps,
  (forall p l, ps !! p = Some l ->
     l ≠ [] /\ p ≠ "" /\ exists k, OVERKIZ_DEVICE_TO_PLATFORM K !! k = Some p) ->
  forall p l, foldl (map_device_on K) ps devs !! p = Some l ->
    l ≠ [] /\ p ≠ "" /\ exists k, OVERKIZ_DEVICE_TO_PLATFORM K !! k = Some p.
Proof.
  induction devs as [| device devs IH]; intros ps Hinv; simpl; [done |].
  apply IH. intros p l. rewrite map_device_on_general.
  destruct (device_platform K device) as [q |] eqn:Hq; [| by apply Hinv].
  destruct (decide (q ≠ "")) as [Hne | _]; [| by apply Hinv].
  unfold append_device. destruct (decide (q = p)) as [-> | Hqp].
  - rewrite lookup_insert_eq. intros [= <-]. split; [| split].
    + by destruct (default [] (ps !! p)).
    + done.
    + by eapply device_platform_mapped.
  - rewrite lookup_insert_ne by done. by apply Hinv.
Qed.

(** X17: whatever the mapping holds, the dictionary the stored bundle
    refers to has no empty bucket and no bucket under the empty string;
    each of its keys is a platform of the mapping; a device sits in one
    bucket at most; and every device in a bucket is one the coordinator
    holds. *)
Theorem setup_buckets_well_formed entry hass client setup scens d :
  client_factory K env entry = Ok client ->
  connect env client = Ok (setup, scens) ->
  first_refresh env
    (new_coordinator env "device events" client (devices setup) (root_place setup)
       (UPDATE_INTERVAL K) (entry_id entry)) = Ok d ->
  exists b ps,
    lookup_bundle (DOMAIN K) (async_setup_entry K env entry hass).2 (entry_id entry) = Some b
    /\ heap (async_setup_entry K env entry hass).2 !! platforms b = Some (OPlatforms ps)
    /\ (forall p l, ps !! p = Some l ->
          l ≠ [] /\ p ≠ "" /\ exists k, OVERKIZ_DEVICE_TO_PLATFORM K !! k = Some p)
    /\ (forall device p q,
          device ∈ bucket ps p -> device ∈ bucket ps q -> p = q)
    /\ (forall device p, device ∈ bucket ps p -> device ∈ map snd d).
Proof.
  intros Hc Hf Hr. rewrite (setup_run K env _ hass _ _ _ _ Hc Hf Hr).
  destruct (register_and_forward K env entry client setup _) as [r h'] eqn:Hrun.
  apply register_and_forward_frame in Hrun as [Hd Hh].
  destruct (platform_mapped_bundle K env _ _ _ _ _ _ _ Hd Hh) as (b & Hb & _ & _ & Hpl).
  exists b, (foldl (map_device_on K) ∅ (map snd d)). simpl.
  assert (forall p device,
             device ∈ bucket (foldl (map_device_on K) ∅ (map snd d)) p ->
             device ∈ map snd d /\ device_platform K device = Some p) as Hin.
  { intros p device. rewrite bucket_foldl_general. unfold bucket at 1.
    rewrite lookup_empty. simpl. intros [[Hp _] Hdev]%list_elem_of_filter. done. }
  split; [done |]. split; [done |]. split; [| split].
  - apply keys_foldl. intros p l. by rewrite lookup_empty.
  - intros device p q [_ Hp]%Hin [_ Hq]%Hin. congruence.
  - intros device p [Hdev _]%Hin. done.
Qed.

End Buckets.

(** ** References of the stored bundle, and what the [try] lets through *)

Section Aliasing_and_translation.

Variable K : Const.
Variable env : Env.

(** X18: the bundle [async_setup_entry] stores refers to two distinct
    objects that did not exist before the call: no coordinator and no
    platform dictionary is shared with a bundle stored earlier, also when
    the entry is set up a second time. *)
Theorem setup_bundle_fresh entry hass client setup scens d :
  client_factory K env entry = Ok client ->
  connect env client = Ok (setup, scens) ->
  first_refresh env
    (new_coordinator env "device events" client (devices setup) (root_place setup)
       (UPDATE_INTERVAL K) (entry_id entry)) = Ok d ->
  exists b,
    lookup_bundle (DOMAIN K) (async_setup_entry K env entry hass).2 (entry_id entry) = Some b
    /\ coordinator b ≠ platforms b
    /\ heap hass !! coordinator b = None
    /\ heap hass !! platforms b = None
    /\ is_Some (heap (async_setup_entry K env entry hass).2 !! coordinator b)
    /\ is_Some (heap (async_setup_entry K env entry hass).2 !! platforms b).
Proof.
  intros Hc Hf Hr. rewrite (setup_run K env _ hass _ _ _ _ Hc Hf Hr).
  destruct (register_and_forward K env entry client setup _) as [r h'] eqn:Hrun.
  apply register_and_forward_frame in Hrun as [Hd Hh].
  exists {| coordinator := length (heap hass);
            platforms := S (length (heap hass));
            scenarios := scens |}.
  simpl. unfold lookup_bundle. rewrite Hd, Hh. simpl.
  rewrite !lookup_insert_eq. split; [reflexivity |]. split; [lia |].
  split; [apply lookup_ge_None; lia |]. split; [apply lookup_ge_None; lia |].
  split; apply lookup_lt_is_Some; rewrite length_app; simpl; lia.
Qed.


End Aliasing_and_translation.

(** ** The further properties at the sample data *)

Lemma cloud_client_construction_witness :
  client_factory Sample.K Sample.env Sample.entry_cloud = Ok Sample.cloud_client.
Proof.
  apply (cloud_client_construction Sample.K Sample.env Sample.entry_cloud
           (VStr "cloud") Sample.cloud_client).
  - vm_compute. reflexivity.
  - vm_compute. congruence.
  - exists (VStr "user@example.org"), (VStr "secret"), "somfy_europe", Sample.somfy_europe.
    vm_compute. done.
Defined.

Lemma local_client_construction_witness :
  client_factory Sample.K Sample.env Sample.entry_local = Ok Sample_edges.local_client.
Proof.
  apply (local_client_construction Sample.K Sample.env Sample.entry_local
           Sample_edges.local_client).
  - vm_compute. reflexivity.
  - exists (VStr "gateway-1234-5678-9012.local:8443"), (VStr "0f1e2d3c").
    vm_compute. done.
Defined.

Lemma setup_client_key_error_witness :
  (exists k, KeyError (VStr "api_type") = KeyError k)
  /\ async_setup_entry Sample.K Sample.env Sample.entry_v1 Sample.hass
     = (Raise (KeyError (VStr "api_type")), Sample.hass).
Proof.
  apply (setup_client_key_error Sample.K Sample.env Sample.entry_v1 Sample.hass
           (KeyError (VStr "api_type"))).
  vm_compute. reflexivity.
Defined.

Lemma connect_ok_iff_witness :
  connect Sample.env Sample.cloud_client = Ok (Sample.setup, [Sample.scenario]).
Proof.
  apply (connect_ok_iff Sample.env Sample.cloud_client Sample.setup [Sample.scenario]).
  vm_compute. done.
Defined.


Lemma setup_refresh_error_propagates_witness :
  exists hass',
    async_setup_entry Sample.K Sample_edges.env_refresh_fails
      Sample.entry_cloud Sample.hass = (Raise TimeoutError, hass')
    /\ length (heap hass') = 1
    /\ hass_data hass' = ∅.
Proof.
  destruct (setup_refresh_error_propagates Sample.K Sample_edges.env_refresh_fails
              Sample.entry_cloud Sample.hass Sample.cloud_client Sample.setup
              [Sample.scenario] TimeoutError)
    as (hass' & Hrun & Hheap & Hdata & _).
  - vm_compute. reflexivity.
  - vm_compute. reflexivity.
  - vm_compute. reflexivity.
  - exists hass'. split; [exact Hrun |]. split; [by rewrite Hheap | exact Hdata].
Defined.

Lemma setup_success_witness :
  exists hass' b c,
    async_setup_entry Sample.K Sample.env Sample.entry_cloud Sample.hass = (Ok true, hass')
    /\ lookup_bundle "overkiz_local" hass' "0123" = Some b
    /\ scenarios b = [Sample.scenario]
    /\ heap hass' !! coordinator b = Some (OCoordinator c)
    /\ coordinator_data c = Some Sample_edges.refreshed
    /\ config_entry_id c = "0123"
    /\ forwarded hass' = <["0123" := ["cover"; "light"; "switch"; "water_heater"]]> ∅
    /\ saved_entries hass' = [].
Proof.
  apply (setup_success Sample.K Sample.env Sample.entry_cloud Sample.hass
           Sample.cloud_client Sample.setup [Sample.scenario] Sample_edges.refreshed).
  - vm_compute. reflexivity.
  - vm_compute. reflexivity.
  - vm_compute. reflexivity.
  - intros g _. reflexivity.
  - reflexivity.
Defined.

Lemma setup_registry_frame_witness :
  lookup_bundle "overkiz_local"
    (async_setup_entry Sample.K Sample.env Sample.entry_local Sample.hass_loaded).2 "0123"
  = lookup_bundle "overkiz_local" Sample.hass_loaded "0123".
Proof.
  apply (setup_registry_frame Sample.K Sample.env Sample.entry_local Sample.hass_loaded
           "overkiz_local" "0123").
  right. vm_compute. congruence.
Defined.

Lemma setup_heap_frame_witness :
  exists new,
    heap (async_setup_entry Sample.K Sample.env Sample.entry_local Sample.hass_loaded).2
    = heap Sample.hass_loaded ++ new
    /\ (length new <= 2)%nat
    /\ forall l o, heap Sample.hass_loaded !! l = Some o ->
         heap (async_setup_entry Sample.K Sample.env Sample.entry_local
                 Sample.hass_loaded).2 !! l = Some o.
Proof.
  exact (setup_heap_frame Sample.K Sample.env Sample.entry_local Sample.hass_loaded).
Defined.

Lemma unload_without_bundle_raises_witness :
  exists hass',
    async_unload_entry Sample.K Sample.env Sample.entry_local Sample.hass_loaded
    = (Raise (KeyError (VStr "4567")), hass')
    /\ hass_data hass' = hass_data Sample.hass_loaded.
Proof.
  apply (unload_without_bundle_raises Sample.K Sample.env Sample.entry_local
           Sample.hass_loaded);
    vm_compute; reflexivity.
Defined.

Lemma unload_twice_raises_witness :
  (async_unload_entry Sample.K Sample.env Sample.entry_cloud Sample.hass_loaded).1 = Ok true
  /\ (async_unload_entry Sample.K Sample.env Sample.entry_cloud
        (async_unload_entry Sample.K Sample.env Sample.entry_cloud Sample.hass_loaded).2).1
     = Raise (KeyError (VStr "0123")).
Proof.
  apply (unload_twice_raises Sample.K Sample.env Sample.entry_cloud Sample.hass_loaded
           {| coordinator := 0; platforms := 1; scenarios := [Sample.scenario] |});
    vm_compute; reflexivity.
Defined.

Lemma setup_then_unload_witness :
  exists h1 h2,
    async_setup_entry Sample.K Sample.env Sample.entry_local Sample.hass_loaded
    = (Ok true, h1)
    /\ async_unload_entry Sample.K Sample.env Sample.entry_local h1 = (Ok true, h2)
    /\ (forall domain id,
          lookup_bundle domain h2 id = lookup_bundle domain Sample.hass_loaded id)
    /\ forwarded h2 = delete "4567" (forwarded Sample.hass_loaded).
Proof.
  apply (setup_then_unload Sample.K Sample.env Sample.entry_local Sample.hass_loaded
           Sample_edges.local_client Sample.setup [Sample.scenario]
           Sample_edges.refreshed).
  - vm_compute. reflexivity.
  - vm_compute. reflexivity.
  - vm_compute. reflexivity.
  - intros g _. reflexivity.
  - reflexivity.
  - reflexivity.
  - vm_compute. reflexivity.
Defined.

Lemma migrate_v1_without_hub_raises_witness :
  async_migrate_entry Sample.K (Sample_edges.entry_v1_without_hub, Sample.hass)
  = (Raise (KeyError (VStr "hub")), (Sample_edges.entry_v1_without_hub, Sample.hass)).
Proof.
  apply (migrate_v1_without_hub_raises Sample.K Sample_edges.entry_v1_without_hub
           Sample.hass);
    vm_compute; reflexivity.
Defined.

Lemma migrate_then_client_witness :
  client_factory Sample.K Sample.env Sample.entry_v1 = Raise (KeyError (VStr "api_type"))
  /\ exists entry' hass',
       async_migrate_entry Sample.K (Sample.entry_v1, Sample.hass)
       = (Ok true, (entry', hass'))
       /\ client_factory Sample.K Sample.env entry' = Ok Sample.cloud_client.
Proof.
  apply (migrate_then_client Sample.K Sample.env Sample.entry_v1 Sample.hass
           (VStr "user@example.org") (VStr "secret") "somfy_europe" Sample.somfy_europe).
  - apply (bool_decide_unpack _). vm_compute. exact I.
  - reflexivity.
  - vm_compute. reflexivity.
  - vm_compute. reflexivity.
  - vm_compute. reflexivity.
  - vm_compute. reflexivity.
  - vm_compute. reflexivity.
Defined.

Lemma setup_buckets_well_formed_witness :
  exists b ps,
    lookup_bundle "overkiz_local" Sample.hass_loaded "0123" = Some b
    /\ heap Sample.hass_loaded !! platforms b = Some (OPlatforms ps)
    /\ (forall p l, ps !! p = Some l ->
          l ≠ [] /\ p ≠ ""
          /\ exists k, OVERKIZ_DEVICE_TO_PLATFORM Sample.K !! k = Some p)
    /\ (forall device p q,
          device ∈ bucket ps p -> device ∈ bucket ps q -> p = q)
    /\ (forall device p, device ∈ bucket ps p -> device ∈ map snd Sample_edges.refreshed).
Proof.
  apply (setup_buckets_well_formed Sample.K Sample.env Sample.entry_cloud Sample.hass
           Sample.cloud_client Sample.setup [Sample.scenario] Sample_edges.refreshed);
    vm_compute; reflexivity.
Defined.

Lemma setup_bundle_fresh_witness :
  exists b,
    lookup_bundle "overkiz_local"
      (async_setup_entry Sample.K Sample.env Sample.entry_cloud Sample.hass_loaded).2
      "0123" = Some b
    /\ coordinator b ≠ platforms b
    /\ heap Sample.hass_loaded !! coordinator b = None
    /\ heap Sample.hass_loaded !! platforms b = None
    /\ is_Some (heap (async_setup_entry Sample.K Sample.env Sample.entry_cloud
                        Sample.hass_loaded).2 !! coordinator b)
    /\ is_Some (heap (async_setup_entry Sample.K Sample.env Sample.entry_cloud
                        Sample.hass_loaded).2 !! platforms b).
Proof.
  apply (setup_bundle_fresh Sample.K Sample.env Sample.entry_cloud Sample.hass_loaded
           Sample.cloud_client Sample.setup [Sample.scenario] Sample_edges.refreshed);
    vm_compute; reflexivity.
Defined.

